(** * Provider settings helpers (ui/desktop, settings/api_keys/utils.tsx)

    A shallow embedding of the three helpers of [utils.tsx]:
    [getProvidersList], [getSecretsSettings] and [getActiveProviders],
    together with the part of the JavaScript semantics they rely on
    (JSON values, truthiness, property access, optional chaining,
    [Object.values], [Array.prototype.map/filter/some], exceptions and
    [try]/[catch]), and the properties of the functional contract.

    The helpers are [async]: a call yields a promise.  A promise that
    fulfils is a [Return], one that rejects is a [Throw], one that never
    settles is [Pending].  Awaiting sequences the computations, so an
    [async] body is read as a sequential program in the monad [M], which
    also records the requests and console lines the body emits. *)

From Stdlib Require Import List String Ascii Bool ZArith Lia Floats.
Import ListNotations.
Local Open Scope string_scope.
Local Open Scope list_scope.

Set Implicit Arguments.

(** ** JavaScript values *)

(** The values [response.json()] can produce, plus [undefined], which
    appears as the result of reading a property that is not there.  An
    object is the list of its own enumerable properties in enumeration
    order (the order [Object.values] follows); property names in one
    object are distinct. *)
#[warnings="-register-all"] Inductive JSValue : Type :=
| JUndefined
| JNull
| JBool (b : bool)
| JNum (f : float)
| JStr (s : string)
| JArr (elems : list JSValue)
| JObj (props : list (string * JSValue)).

(** An exception value. *)
Inductive Exn : Type :=
| Error (message : string)
    (* [new Error(message)], the only error this module builds itself *)
| TypeError
    (* raised by the language: reading a property of [null]/[undefined],
       calling something that is not a function, [Object.values(null)] *)
| Rejection (name message : string).
    (* a reason supplied from outside: [fetch] rejecting on a network
       failure, [json()] rejecting with a [SyntaxError], a configuration
       accessor throwing *)

(** How an evaluation (or an awaited promise) ends. *)
Inductive Completion (A : Type) : Type :=
| Return (a : A)
| Throw (e : Exn)
| Pending.
Arguments Throw {A} e.
Arguments Pending {A}.

Definition cbind {A B} (c : Completion A) (k : A -> Completion B) : Completion B :=
  match c with
  | Return a => k a
  | Throw e => Throw e
  | Pending => Pending
  end.

Declare Scope js_scope.
Delimit Scope js_scope with js.
Notation "x <~ c ;; k" := (cbind c (fun x => k))
  (at level 100, c at next level, right associativity) : js_scope.
Local Open Scope js_scope.

(** [ToBoolean]: the falsy values are [undefined], [null], [false],
    [+0], [-0], [NaN] and the empty string. *)
Definition ToBoolean (v : JSValue) : bool :=
  match v with
  | JUndefined | JNull => false
  | JBool b => b
  | JNum f => negb (PrimFloat.is_zero f || PrimFloat.is_nan f)
  | JStr s => match s with EmptyString => false | String _ _ => true end
  | JArr _ | JObj _ => true
  end.

(** [a || b] where [b] is a literal. *)
Definition or_else (a b : JSValue) : JSValue :=
  if ToBoolean a then a else b.

Fixpoint lookup (k : string) (props : list (string * JSValue)) : option JSValue :=
  match props with
  | [] => None
  | (k', v) :: rest => if String.eqb k k' then Some v else lookup k rest
  end.

(** Reading property [k] of a value that is neither [null] nor
    [undefined].  The names read by this module ([id], [details], [name],
    [description], [models], [required_keys], [secret_status], [is_set])
    are not members of any prototype of a JSON value, so the read sees an
    own property of an object and nothing on anything else. *)
Definition prop (v : JSValue) (k : string) : JSValue :=
  match v with
  | JObj props => match lookup k props with Some x => x | None => JUndefined end
  | _ => JUndefined
  end.

Definition nullish (v : JSValue) : bool :=
  match v with
  | JUndefined | JNull => true
  | _ => false
  end.

(** [v.k] *)
Definition Get (v : JSValue) (k : string) : Completion JSValue :=
  if nullish v then Throw TypeError else Return (prop v k).

(** [v?.k] *)
Definition GetOpt (v : JSValue) (k : string) : JSValue :=
  if nullish v then JUndefined else prop v k.

Definition chars (s : string) : list JSValue :=
  map (fun c => JStr (String c EmptyString)) (list_ascii_of_string s).

(** [Object.values(v)] *)
Definition Object_values (v : JSValue) : Completion (list JSValue) :=
  match v with
  | JUndefined | JNull => Throw TypeError
  | JObj props => Return (map snd props)
  | JArr elems => Return elems
  | JStr s => Return (chars s)
  | JBool _ | JNum _ => Return []
  end.

(** [arr.map(f)] on an array *)
Fixpoint Array_map {A} (f : JSValue -> Completion A) (arr : list JSValue)
  : Completion (list A) :=
  match arr with
  | [] => Return []
  | x :: rest =>
      y <~ f x ;;
      ys <~ Array_map f rest ;;
      Return (y :: ys)
  end.

(** [arr.some(f)]: stops at the first element whose result is truthy. *)
Fixpoint Array_some (f : JSValue -> Completion JSValue) (arr : list JSValue)
  : Completion bool :=
  match arr with
  | [] => Return false
  | x :: rest =>
      r <~ f x ;;
      if ToBoolean r then Return true else Array_some f rest
  end.

(** [arr.filter(f)] *)
Fixpoint Array_filter (f : JSValue -> Completion JSValue) (arr : list JSValue)
  : Completion (list JSValue) :=
  match arr with
  | [] => Return []
  | x :: rest =>
      r <~ f x ;;
      kept <~ Array_filter f rest ;;
      Return (if ToBoolean r then x :: kept else kept)
  end.

(** [data.map(f)] on whatever [data] is: only an array has a callable
    [map]; on [null] the read itself fails, on the other JSON values
    [data.map] is not a function. *)
Definition call_map {A} (data : JSValue) (f : JSValue -> Completion A)
  : Completion (list A) :=
  match data with
  | JArr elems => Array_map f elems
  | _ => Throw TypeError
  end.

(** The JSON value denoted by the text [JSON.stringify(v)]; [None] when
    [JSON.stringify] yields [undefined].  Inside an array [undefined]
    is written [null], inside an object a property holding [undefined]
    is left out; a number that is not finite is written [null], and
    [-0] is written [0]. *)
Fixpoint JSON_stringify (v : JSValue) : option JSValue :=
  match v with
  | JUndefined => None
  | JNull => Some JNull
  | JBool b => Some (JBool b)
  | JNum f =>
      if PrimFloat.is_finite f
      then Some (JNum (if PrimFloat.is_zero f then PrimFloat.zero else f))
      else Some JNull
  | JStr s => Some (JStr s)
  | JArr elems =>
      Some (JArr (map (fun x => match JSON_stringify x with
                                | Some y => y
                                | None => JNull
                                end) elems))
  | JObj props =>
      Some (JObj ((fix members (ps : list (string * JSValue)) :=
                     match ps with
                     | [] => []
                     | (k, x) :: rest =>
                         match JSON_stringify x with
                         | Some y => (k, y) :: members rest
                         | None => members rest
                         end
                     end) props))
  end.

(** ** Effects: requests, console lines, and the host *)

Inductive Method : Type := GET | POST.

(** The second argument of [fetch].  [body] is the JSON value denoted by
    the text passed as the request body. *)
Record Request : Type := mkRequest {
  url : string;
  method : Method;
  headers : list (string * string);
  body : option JSValue
}.

(** What this module reads of a [Response]. *)
Record Response : Type := mkResponse {
  status : Z;
  statusText : string;
  json : Completion JSValue   (* how the promise of [response.json()] settles *)
}.

(** [response.ok]: the status is in the range 200-299. *)
Definition ok (r : Response) : bool :=
  (200 <=? status r)%Z && (status r <=? 299)%Z.

Inductive Event : Type :=
| ConsoleLog (label : string) (data : option JSValue)
| ConsoleError (label : string) (error : Exn)
| Fetch (req : Request).

(** Everything outside the module: the two accessors imported from
    [config] and the network behind [fetch]. *)
Record Host : Type := mkHost {
  getApiUrl : string -> Completion string;
  getSecretKey : Completion string;
  fetch : Request -> Completion Response
}.

(** A run: the events emitted, in order, and the way the run ends. *)
Definition M (A : Type) : Type := (list Event * Completion A)%type.

Definition trace {A} (m : M A) : list Event := fst m.
Definition outcome {A} (m : M A) : Completion A := snd m.

Definition ret {A} (a : A) : M A := ([], Return a).
Definition throw {A} (e : Exn) : M A := ([], Throw e).
Definition lift {A} (c : Completion A) : M A := ([], c).
Definition emit (ev : Event) : M unit := ([ev], Return tt).

Definition bind {A B} (m : M A) (k : A -> M B) : M B :=
  match outcome m with
  | Return a => (trace m ++ trace (k a), outcome (k a))
  | Throw e => (trace m, Throw e)
  | Pending => (trace m, Pending)
  end.

(** [try { m } catch (error) { handler error }] *)
Definition try_catch {A} (m : M A) (handler : Exn -> M A) : M A :=
  match outcome m with
  | Throw e => (trace m ++ trace (handler e), outcome (handler e))
  | _ => m
  end.

Notation "x <- m ;; k" := (bind m (fun x => k))
  (at level 100, m at next level, right associativity) : js_scope.
Notation "m ;;; k" := (bind m (fun _ => k))
  (at level 100, right associativity) : js_scope.

Definition console_log (label : string) (data : option JSValue) : M unit :=
  emit (ConsoleLog label data).
Definition console_error (label : string) (error : Exn) : M unit :=
  emit (ConsoleError label error).

(** [await fetch(...)]: the request goes out, then the promise settles
    the way the host decides. *)
Definition do_fetch (h : Host) (req : Request) : M Response :=
  emit (Fetch req) ;;; lift (fetch h req).

(** ** The module *)

(** The record built by the object literal in [getProvidersList]. *)
Record Provider : Type := mkProvider {
  id : JSValue;
  name : JSValue;
  description : JSValue;
  models : JSValue;
  requiredKeys : JSValue
}.

(** The arrow function passed to [data.map] in [getProvidersList]. *)
Definition formatProvider (item : JSValue) : Completion Provider :=
  i <~ Get item "id" ;;
  d1 <~ Get item "details" ;;
  d2 <~ Get item "details" ;;
  d3 <~ Get item "details" ;;
  d4 <~ Get item "details" ;;
  Return {| id := i;
            name := or_else (GetOpt d1 "name") (JStr "Unknown Provider");
            description := or_else (GetOpt d2 "description")
                                   (JStr "No description available.");
            models := or_else (GetOpt d3 "models") (JArr []);
            requiredKeys := or_else (GetOpt d4 "required_keys") (JArr []) |}.

(** The request [fetch(getApiUrl("/agent/providers"), { method: "GET" })]. *)
Definition catalogRequest (u : string) : Request :=
  {| url := u; method := GET; headers := []; body := None |}.

Definition getProvidersList (h : Host) : M (list Provider) :=
  u <- lift (getApiUrl h "/agent/providers") ;;
  response <- do_fetch h (catalogRequest u) ;;
  if negb (ok response)
  then throw (Error ("Failed to fetch providers: " ++ statusText response)%string)
  else
    data <- lift (json response) ;;
    console_log "Raw API Response:" (Some data) ;;;
    lift (call_map data formatProvider).

(** The request built in [getSecretsSettings]. *)
Definition secretsRequest (u key : string) (providerIds : list JSValue) : Request :=
  {| url := u;
     method := POST;
     headers := [("Content-Type", "application/json"); ("X-Secret-Key", key)];
     body := JSON_stringify (JObj [("providers", JArr providerIds)]) |}.

Definition getSecretsSettings (h : Host) : M JSValue :=
  providerList <- getProvidersList h ;;
  let providerIds := map id providerList in
  u <- lift (getApiUrl h "/secrets/providers") ;;
  key <- lift (getSecretKey h) ;;
  response <- do_fetch h (secretsRequest u key providerIds) ;;
  if negb (ok response)
  then throw (Error "Failed to fetch secrets")
  else
    data <- lift (json response) ;;
    console_log "raw response" (Some data) ;;;
    ret data.

(** The callback of [filter] in [getActiveProviders]. *)
Definition hasSetKey (provider : JSValue) : Completion JSValue :=
  s <~ Get provider "secret_status" ;;
  apiKeyStatus <~ Object_values (or_else s (JObj [])) ;;
  b <~ Array_some (fun key => Get key "is_set") apiKeyStatus ;;
  Return (JBool b).

(** The callback of [map] in [getActiveProviders]. *)
Definition providerName (provider : JSValue) : Completion JSValue :=
  n <~ Get provider "name" ;;
  Return (or_else n (JStr "Unknown Provider")).

(** The filter/map pipeline of [getActiveProviders]. *)
Definition activeProviders (secretsSettings : JSValue) : Completion (list JSValue) :=
  values <~ Object_values secretsSettings ;;
  kept <~ Array_filter hasSetKey values ;;
  Array_map providerName kept.

(** The [try] block of [getActiveProviders]. *)
Definition tryBlock (h : Host) : M (list JSValue) :=
  console_log "here 2" None ;;;
  secretsSettings <- getSecretsSettings h ;;
  console_log "here 3" None ;;;
  active <- lift (activeProviders secretsSettings) ;;
  console_log "here 4" None ;;;
  ret active.

(** The [catch] block of [getActiveProviders]. *)
Definition catchBlock (error : Exn) : M (list JSValue) :=
  console_error "Failed to get active providers:" error ;;;
  ret [].

Definition getActiveProviders (h : Host) : M (list JSValue) :=
  console_log "here 1" None ;;;
  try_catch (tryBlock h) catchBlock.

(** ** What is observed of a run, and how the payloads are read *)

(** The requests of a trace, and those among them that are POSTs. *)
Definition requests (t : list Event) : list Request :=
  flat_map (fun ev => match ev with Fetch r => [r] | _ => [] end) t.

Definition is_post (r : Request) : bool :=
  match method r with POST => true | GET => false end.

Definition posts (t : list Event) : list Request :=
  filter is_post (requests t).

(** [r] is the response the host gives to the catalog request. *)
Definition catalog_response (h : Host) (r : Response) : Prop :=
  exists u, getApiUrl h "/agent/providers" = Return u /\
            fetch h (catalogRequest u) = Return r.

(** [r] is the response the host gives to the secrets request. *)
Definition secrets_response (h : Host) (r : Response) : Prop :=
  exists ps u key,
    outcome (getProvidersList h) = Return ps /\
    getApiUrl h "/secrets/providers" = Return u /\
    getSecretKey h = Return key /\
    fetch h (secretsRequest u key (map id ps)) = Return r.

(** An array element as [JSON.stringify] writes it. *)
Definition json_element (v : JSValue) : JSValue :=
  match JSON_stringify v with
  | Some y => y
  | None => JNull
  end.

(** Property [k] of [v] when [v] is an object that has it. *)
Definition field (v : JSValue) (k : string) : option JSValue :=
  match v with
  | JObj props => lookup k props
  | _ => None
  end.

(** The detail field [k] of a raw catalog entry: present when the entry
    has a [details] object and that object has [k]. *)
Definition detail (item : JSValue) (k : string) : option JSValue :=
  match field item "details" with
  | Some d => field d k
  | None => None
  end.

(** The value of a source field that may be absent, replaced by [d] when
    it is absent or falsy. *)
Definition default_to (source : option JSValue) (d : JSValue) : JSValue :=
  match source with
  | Some v => if ToBoolean v then v else d
  | None => d
  end.

(** The host answers the catalog request with a success status and a
    body that parses to the array [items]. *)
Definition catalog (h : Host) (items : list JSValue) : Prop :=
  exists r, catalog_response h r /\ ok r = true /\ json r = Return (JArr items).

(** The value of a source field that may be absent, replaced by [d] only
    when it is absent. *)
Definition present_or (source : option JSValue) (d : JSValue) : JSValue :=
  match source with
  | Some v => v
  | None => d
  end.

(** The record of the data model for a raw entry, read as "each field
    defaults when absent in the source payload". *)
Definition described_record (item : JSValue) : Provider :=
  {| id := prop item "id";
     name := present_or (detail item "name") (JStr "Unknown Provider");
     description := present_or (detail item "description")
                               (JStr "No description available.");
     models := present_or (detail item "models") (JArr []);
     requiredKeys := present_or (detail item "required_keys") (JArr []) |}.

(** Modelled from the spec: the types [ProviderResponse] and its secret
    status come from [./types], which is not among the sources.  The data
    model gives a secret status as [{ is_set: boolean }] (more fields
    allowed), a provider response as [{ name?: string, secret_status?:
    mapping from key name to secret status }], and the secrets settings as
    a mapping from provider identifier to provider response. *)
Definition is_SecretStatus (v : JSValue) : bool :=
  match field v "is_set" with
  | Some (JBool _) => true
  | _ => false
  end.

Definition is_ProviderResponse (v : JSValue) : bool :=
  match v with
  | JObj _ =>
      match field v "name" with
      | None | Some (JStr _) => true
      | _ => false
      end
      &&
      match field v "secret_status" with
      | None => true
      | Some (JObj keys) => forallb is_SecretStatus (map snd keys)
      | _ => false
      end
  | _ => false
  end.

Definition is_SecretsSettings (v : JSValue) : bool :=
  match v with
  | JObj entries => forallb is_ProviderResponse (map snd entries)
  | _ => false
  end.

(** The secret-status values of a provider response; none when
    [secret_status] is absent. *)
Definition secret_statuses (p : JSValue) : list JSValue :=
  match field p "secret_status" with
  | Some (JObj keys) => map snd keys
  | _ => []
  end.

(** [is_set == true] *)
Definition is_set (st : JSValue) : bool :=
  match field st "is_set" with
  | Some (JBool true) => true
  | _ => false
  end.

(** At least one secret-status value of the provider has [is_set == true]. *)
Definition has_set_secret (p : JSValue) : bool :=
  existsb is_set (secret_statuses p).

(** The display name read as "the name field, defaulting to
    ["Unknown Provider"] when absent". *)
Definition described_name (p : JSValue) : JSValue :=
  present_or (field p "name") (JStr "Unknown Provider").

(** The display name: the name field, or ["Unknown Provider"] when the
    field is absent or falsy (empty). *)
Definition display_name (p : JSValue) : JSValue :=
  default_to (field p "name") (JStr "Unknown Provider").

(** The names of the entries that have a set secret, one per entry, in
    the order of the entries. *)
Definition active_names (entries : list (string * JSValue)) : list JSValue :=
  map display_name (filter has_set_secret (map snd entries)).

(** ** A host to run the module against *)

(** A backend that answers the catalog request with [catalog] and the
    secrets request with [secrets]. *)
Definition backend (catalog secrets : Response) : Host :=
  {| getApiUrl := fun path => Return ("http://127.0.0.1:3000" ++ path)%string;
     getSecretKey := Return "test";
     fetch := fun req => match method req with
                         | GET => Return catalog
                         | POST => Return secrets
                         end |}.

Definition json_response (v : JSValue) : Response :=
  {| status := 200; statusText := "OK"; json := Return v |}.

Definition error_response (code : Z) (text : string) : Response :=
  {| status := code; statusText := text; json := Return JNull |}.

(** A host whose network is down: [fetch] rejects. *)
Definition offline : Host :=
  {| getApiUrl := fun path => Return ("http://127.0.0.1:3000" ++ path)%string;
     getSecretKey := Return "test";
     fetch := fun _ => Throw (Rejection "TypeError" "Failed to fetch") |}.

Definition obj_openai : JSValue :=
  JObj [("name", JStr "OpenAI");
        ("secret_status", JObj [("KEY1", JObj [("is_set", JBool true)])])].

Definition obj_cohere : JSValue :=
  JObj [("name", JStr "Cohere");
        ("secret_status", JObj [("KEY2", JObj [("is_set", JBool false)])])].

Definition example_settings : JSValue :=
  JObj [("openai", obj_openai); ("cohere", obj_cohere)].

(** A provider with a set secret and an empty name. *)
Definition obj_local : JSValue :=
  JObj [("name", JStr "");
        ("secret_status", JObj [("KEY", JObj [("is_set", JBool true)])])].

Definition settings_local : JSValue :=
  JObj [("local", obj_local)].

(** Two providers with a set secret and the same name. *)
Definition settings_twins : JSValue :=
  JObj [("openai", obj_openai); ("cohere", obj_cohere); ("openai-eu", obj_openai)].

(** A success status with a body that is not JSON. *)
Definition malformed_response : Response :=
  {| status := 200;
     statusText := "OK";
     json := Throw (Rejection "SyntaxError" "Unexpected end of JSON input") |}.

Definition entry_openai : JSValue :=
  JObj [("id", JStr "openai");
        ("details", JObj [("name", JStr "OpenAI");
                          ("description", JStr "GPT models");
                          ("models", JArr [JStr "gpt-4o"]);
                          ("required_keys", JArr [JStr "KEY1"])])].

(** An entry with no [details] at all. *)
Definition entry_cohere : JSValue :=
  JObj [("id", JStr "cohere")].

(** An entry with every detail field present, the name being empty. *)
Definition entry_local : JSValue :=
  JObj [("id", JStr "local");
        ("details", JObj [("name", JStr "");
                          ("description", JStr "Runs on this machine");
                          ("models", JArr [JStr "llama"]);
                          ("required_keys", JArr [])])].

(** An entry whose [details] has a description only, and an empty one. *)
Definition entry_draft : JSValue :=
  JObj [("id", JStr "draft");
        ("details", JObj [("description", JStr "")])].

Definition example_catalog : JSValue :=
  JArr [entry_openai; entry_cohere].

(** The backend of the running example. *)
Definition demo : Host :=
  backend (json_response example_catalog) (json_response example_settings).

(** A backend whose catalog endpoint answers 500. *)
Definition catalog_down : Host :=
  backend (error_response 500 "Internal Server Error") (json_response JNull).

(** A backend whose secrets endpoint answers 403. *)
Definition secrets_forbidden : Host :=
  backend (json_response (JArr [])) (error_response 403 "Forbidden").

(** A backend whose secrets endpoint answers with a body that is not JSON. *)
Definition secrets_malformed : Host :=
  backend (json_response example_catalog) malformed_response.

(** A backend whose secrets endpoint answers [null]. *)
Definition secrets_null : Host :=
  backend (json_response example_catalog) (json_response JNull).

Definition local_catalog : Host :=
  backend (json_response (JArr [entry_local])) (json_response JNull).

Definition draft_catalog : Host :=
  backend (json_response (JArr [entry_draft])) (json_response JNull).

Definition local_host : Host :=
  backend (json_response (JArr [entry_local; entry_draft])) (json_response settings_local).

Definition twins_host : Host :=
  backend (json_response example_catalog) (json_response settings_twins).

(** ** Readings and hosts for the further properties *)

(** The key statuses the filter of [getActiveProviders] goes through for
    a provider: [Object.values(provider.secret_status || {})]. *)
Definition status_values (provider : JSValue) : list JSValue :=
  match Object_values (or_else (prop provider "secret_status") (JObj [])) with
  | Return l => l
  | _ => []
  end.

(** [key.is_set] taken as a condition. *)
Definition key_set (key : JSValue) : bool :=
  ToBoolean (prop key "is_set").

Definition some_key_set (provider : JSValue) : bool :=
  existsb key_set (status_values provider).

(** A host whose every request stays unanswered. *)
Definition stalled : Host :=
  {| getApiUrl := fun path => Return ("http://127.0.0.1:3000" ++ path)%string;
     getSecretKey := Return "test";
     fetch := fun _ => Pending |}.

(** A host whose configuration has no secret key: the accessor throws. *)
Definition keyless : Host :=
  {| getApiUrl := fun path => Return ("http://127.0.0.1:3000" ++ path)%string;
     getSecretKey := Throw (Rejection "Error" "secret key is not configured");
     fetch := fun req => match method req with
                         | GET => Return (json_response example_catalog)
                         | POST => Return (json_response example_settings)
                         end |}.

(** A host that serves the catalog and then loses the network. *)
Definition secrets_offline : Host :=
  {| getApiUrl := fun path => Return ("http://127.0.0.1:3000" ++ path)%string;
     getSecretKey := Return "test";
     fetch := fun req => match method req with
                         | GET => Return (json_response example_catalog)
                         | POST => Throw (Rejection "TypeError" "Failed to fetch")
                         end |}.

Definition catalog_malformed : Host :=
  backend malformed_response (json_response JNull).

Definition catalog_not_array : Host :=
  backend (json_response (JObj [("providers", JArr [entry_openai])])) (json_response JNull).

Definition catalog_with_null : Host :=
  backend (json_response (JArr [entry_openai; JNull; entry_cohere])) (json_response JNull).

(** An entry whose [details] is [null], and one without [id]. *)
Definition entry_bare : JSValue :=
  JObj [("id", JStr "bare"); ("details", JNull)].

Definition entry_anonymous : JSValue :=
  JObj [("details", JObj [("id", JStr "inner"); ("name", JStr "Anonymous")])].

Definition bare_catalog : Host :=
  backend (json_response (JArr [entry_bare; entry_anonymous]))
          (json_response example_settings).

(** A mapping with a [null] entry after an active provider. *)
Definition settings_with_null : JSValue :=
  JObj [("openai", obj_openai); ("ghost", JNull)].

Definition null_entry_host : Host :=
  backend (json_response example_catalog) (json_response settings_with_null).

(** A mapping that does not follow the declared types: [is_set] given as
    a number and as a string, and an entry that is a string. *)
Definition obj_numeric : JSValue :=
  JObj [("name", JStr "Numeric");
        ("secret_status", JObj [("K", JObj [("is_set", JNum 1)])])].

Definition obj_blank_flag : JSValue :=
  JObj [("name", JStr "Blank");
        ("secret_status", JObj [("K", JObj [("is_set", JStr "")])])].

Definition settings_loose : JSValue :=
  JObj [("numeric", obj_numeric); ("text", JStr "n/a"); ("blank", obj_blank_flag)].

Definition loose_host : Host :=
  backend (json_response example_catalog) (json_response settings_loose).

(** A provider whose second key is set and whose third key is [null]. *)
Definition obj_partial : JSValue :=
  JObj [("name", JStr "Partial");
        ("secret_status", JObj [("A", JObj [("is_set", JBool false)]);
                                ("B", JObj [("is_set", JBool true)]);
                                ("C", JNull)])].

(** * Properties *)

Example getActiveProviders_example :
  outcome (getActiveProviders demo) = Return [JStr "OpenAI"].
Proof. reflexivity. Qed.

Example getActiveProviders_offline :
  getActiveProviders offline
  = ([ConsoleLog "here 1" None; ConsoleLog "here 2" None;
      Fetch (catalogRequest "http://127.0.0.1:3000/agent/providers");
      ConsoleError "Failed to get active providers:"
                   (Rejection "TypeError" "Failed to fetch")],
     Return []).
Proof. reflexivity. Qed.

(** [some] stops at the first truthy result: a [null] after a set key
    is never read, one before it makes the callback throw. *)
Example hasSetKey_stops_early :
  hasSetKey (JObj [("secret_status",
                    JObj [("A", JObj [("is_set", JBool true)]); ("B", JNull)])])
  = Return (JBool true).
Proof. reflexivity. Qed.

Example hasSetKey_null_key :
  hasSetKey (JObj [("secret_status",
                    JObj [("B", JNull); ("A", JObj [("is_set", JBool true)])])])
  = Throw TypeError.
Proof. reflexivity. Qed.

(** A body that is not an array has no [map] to call. *)
Example getProvidersList_not_an_array :
  outcome (getProvidersList (backend (json_response (JObj [])) (json_response JNull)))
  = Throw TypeError.
Proof. reflexivity. Qed.

(** A provider without [id] is sent as [null]. *)
Example JSON_stringify_missing_id :
  JSON_stringify (JObj [("providers", JArr [JStr "openai"; JUndefined])])
  = Some (JObj [("providers", JArr [JStr "openai"; JNull])]).
Proof. reflexivity. Qed.

(** ** Runs of the monad *)

Lemma outcome_bind {A B} (m : M A) (k : A -> M B) :
  outcome (bind m k) =
  match outcome m with
  | Return a => outcome (k a)
  | Throw e => Throw e
  | Pending => Pending
  end.
Proof. unfold bind. destruct (outcome m); reflexivity. Qed.

Lemma trace_bind {A B} (m : M A) (k : A -> M B) :
  trace (bind m k) =
  trace m ++ match outcome m with
             | Return a => trace (k a)
             | _ => []
             end.
Proof.
  unfold bind. destruct (outcome m); cbn; now rewrite ?app_nil_r.
Qed.

Lemma outcome_try_catch {A} (m : M A) (handler : Exn -> M A) :
  outcome (try_catch m handler) =
  match outcome m with
  | Throw e => outcome (handler e)
  | c => c
  end.
Proof. unfold try_catch. destruct (outcome m) eqn:E; cbn; auto. Qed.

Lemma trace_try_catch {A} (m : M A) (handler : Exn -> M A) :
  trace (try_catch m handler) =
  trace m ++ match outcome m with
             | Throw e => trace (handler e)
             | _ => []
             end.
Proof.
  unfold try_catch. destruct (outcome m); cbn; now rewrite ?app_nil_r.
Qed.

Lemma posts_app (t1 t2 : list Event) : posts (t1 ++ t2) = posts t1 ++ posts t2.
Proof. unfold posts, requests. now rewrite flat_map_app, filter_app. Qed.

(** ** Runs of [getProvidersList] *)

Lemma getProvidersList_run (h : Host) (u : string) (r : Response) :
  getApiUrl h "/agent/providers" = Return u ->
  fetch h (catalogRequest u) = Return r ->
  getProvidersList h =
  if ok r
  then match json r with
       | Return data =>
           ([Fetch (catalogRequest u); ConsoleLog "Raw API Response:" (Some data)],
            call_map data formatProvider)
       | Throw e => ([Fetch (catalogRequest u)], Throw e)
       | Pending => ([Fetch (catalogRequest u)], Pending)
       end
  else ([Fetch (catalogRequest u)],
        Throw (Error ("Failed to fetch providers: " ++ statusText r)%string)).
Proof.
  intros Hu Hr. unfold getProvidersList, do_fetch, bind, lift.
  rewrite Hu. cbn. rewrite Hr. cbn.
  destruct (ok r); cbn; [|reflexivity].
  destruct (json r); reflexivity.
Qed.

Lemma getProvidersList_success (h : Host) (r : Response) (data : JSValue) :
  catalog_response h r -> ok r = true -> json r = Return data ->
  outcome (getProvidersList h) = call_map data formatProvider.
Proof.
  intros (u & Hu & Hr) Hok Hj.
  rewrite (getProvidersList_run h Hu Hr), Hok, Hj. reflexivity.
Qed.

(** [getProvidersList] sends no POST. *)
Lemma getProvidersList_no_post (h : Host) : posts (trace (getProvidersList h)) = [].
Proof.
  unfold getProvidersList, do_fetch, bind, lift.
  destruct (getApiUrl h "/agent/providers") as [u| |]; cbn; try reflexivity.
  destruct (fetch h (catalogRequest u)) as [r| |]; cbn; try reflexivity.
  destruct (ok r); cbn; try reflexivity.
  destruct (json r); reflexivity.
Qed.

(** ** Runs of [getSecretsSettings] *)

Lemma getSecretsSettings_run (h : Host) ps u key :
  outcome (getProvidersList h) = Return ps ->
  getApiUrl h "/secrets/providers" = Return u ->
  getSecretKey h = Return key ->
  getSecretsSettings h =
  let req := secretsRequest u key (map id ps) in
  match fetch h req with
  | Return r =>
      if ok r
      then match json r with
           | Return data =>
               (trace (getProvidersList h)
                  ++ [Fetch req; ConsoleLog "raw response" (Some data)],
                Return data)
           | Throw e => (trace (getProvidersList h) ++ [Fetch req], Throw e)
           | Pending => (trace (getProvidersList h) ++ [Fetch req], Pending)
           end
      else (trace (getProvidersList h) ++ [Fetch req],
            Throw (Error "Failed to fetch secrets"))
  | Throw e => (trace (getProvidersList h) ++ [Fetch req], Throw e)
  | Pending => (trace (getProvidersList h) ++ [Fetch req], Pending)
  end.
Proof.
  intros Hps Hu Hk. unfold getSecretsSettings, bind at 1.
  rewrite Hps. unfold do_fetch, bind, lift. rewrite Hu. cbn. rewrite Hk. cbn.
  destruct (fetch h (secretsRequest u key (map id ps))) as [r| |]; cbn; try reflexivity.
  destruct (ok r); cbn; try reflexivity.
  destruct (json r); reflexivity.
Qed.

Lemma getSecretsSettings_propagates (h : Host) (e : Exn) :
  outcome (getProvidersList h) = Throw e ->
  getSecretsSettings h = (trace (getProvidersList h), Throw e).
Proof.
  intros He. unfold getSecretsSettings, bind at 1. now rewrite He.
Qed.

Lemma getSecretsSettings_posts (h : Host) :
  posts (trace (getSecretsSettings h)) =
  match outcome (getProvidersList h),
        getApiUrl h "/secrets/providers", getSecretKey h with
  | Return ps, Return u, Return key => [secretsRequest u key (map id ps)]
  | _, _, _ => []
  end.
Proof.
  unfold getSecretsSettings. rewrite trace_bind, posts_app, getProvidersList_no_post.
  destruct (outcome (getProvidersList h)) as [ps| |]; try reflexivity.
  unfold do_fetch, bind, lift.
  destruct (getApiUrl h "/secrets/providers") as [u| |]; cbn; try reflexivity.
  destruct (getSecretKey h) as [key| |]; cbn; try reflexivity.
  destruct (fetch h _) as [r| |]; cbn; try reflexivity.
  destruct (ok r); cbn; try reflexivity.
  destruct (json r); reflexivity.
Qed.

Lemma JSON_stringify_providers (ids : list JSValue) :
  JSON_stringify (JObj [("providers", JArr ids)])
  = Some (JObj [("providers", JArr (map json_element ids))]).
Proof. reflexivity. Qed.

Lemma json_element_string (ids : list JSValue) :
  (forall v, In v ids -> exists s, v = JStr s) -> map json_element ids = ids.
Proof.
  induction ids as [|v ids IH]; intros Hs; [reflexivity|].
  cbn [map]. rewrite IH by (intros; apply Hs; now right).
  destruct (Hs v (or_introl eq_refl)) as [s ->]. reflexivity.
Qed.

(** ** Failure of the catalog request *)

(** C5: when the response to the catalog GET has a non-success status,
    [getProvidersList] rejects with the error whose message carries the
    response's status text, and so returns no provider list, empty or not. *)
Theorem getProvidersList_non_success (h : Host) (r : Response) :
  catalog_response h r ->
  ok r = false ->
  outcome (getProvidersList h)
  = Throw (Error ("Failed to fetch providers: " ++ statusText r)%string)
  /\ forall ps, outcome (getProvidersList h) <> Return ps.
Proof.
  intros (u & Hu & Hr) Hok.
  rewrite (getProvidersList_run h Hu Hr), Hok. cbn.
  split; [reflexivity | discriminate].
Qed.

Lemma getProvidersList_non_success_witness :
  ok (error_response 500 "Internal Server Error") = false /\
  outcome (getProvidersList catalog_down)
  = Throw (Error "Failed to fetch providers: Internal Server Error").
Proof.
  split; [reflexivity|].
  refine (proj1 (@getProvidersList_non_success catalog_down
                   (error_response 500 "Internal Server Error") _ _)).
  - exists "http://127.0.0.1:3000/agent/providers". split; reflexivity.
  - reflexivity.
Defined.

(** ** Failures of [getSecretsSettings] *)

(** C6: when the response to the secrets-status POST has a non-success
    status, [getSecretsSettings] rejects with the error whose message is
    exactly ["Failed to fetch secrets"]; and when [getProvidersList]
    rejects, [getSecretsSettings] rejects with the same error, having done
    nothing more than [getProvidersList] did (no value is produced). *)
Theorem getSecretsSettings_failures (h : Host) :
  (forall r, secrets_response h r -> ok r = false ->
     outcome (getSecretsSettings h) = Throw (Error "Failed to fetch secrets")) /\
  (forall e, outcome (getProvidersList h) = Throw e ->
     outcome (getSecretsSettings h) = Throw e /\
     trace (getSecretsSettings h) = trace (getProvidersList h)).
Proof.
  split.
  - intros r (ps & u & key & Hps & Hu & Hk & Hr) Hok.
    rewrite (getSecretsSettings_run h Hps Hu Hk). cbv zeta.
    rewrite Hr, Hok. reflexivity.
  - intros e He. rewrite (getSecretsSettings_propagates h He). split; reflexivity.
Qed.

Lemma getSecretsSettings_failures_witness :
  outcome (getSecretsSettings secrets_forbidden)
  = Throw (Error "Failed to fetch secrets")
  /\
  outcome (getSecretsSettings catalog_down)
  = Throw (Error "Failed to fetch providers: Internal Server Error").
Proof.
  split.
  - refine (proj1 (getSecretsSettings_failures secrets_forbidden)
                  (error_response 403 "Forbidden") _ _).
    + exists [], "http://127.0.0.1:3000/secrets/providers", "test".
      repeat split; reflexivity.
    + reflexivity.
  - refine (proj1 (proj2 (getSecretsSettings_failures catalog_down) _ _)).
    reflexivity.
Defined.

(** ** The request sent by [getSecretsSettings] *)

(** C7: a run of [getSecretsSettings] never sends more than one POST,
    and once [getProvidersList] has returned its providers and the
    configuration has given the URL and the secret key, it sends exactly
    one: its [X-Secret-Key] header is the configured key and its body is
    the JSON text of [{ providers: ids }], where [ids] lists the [id] of
    every provider returned, one per provider and in the same order (each
    written the way [JSON.stringify] writes an array element, which leaves
    an identifier that is a string as it is). *)
Theorem getSecretsSettings_request (h : Host) :
  List.length (posts (trace (getSecretsSettings h))) <= 1 /\
  forall ps u key,
    outcome (getProvidersList h) = Return ps ->
    getApiUrl h "/secrets/providers" = Return u ->
    getSecretKey h = Return key ->
    exists req,
      posts (trace (getSecretsSettings h)) = [req] /\
      url req = u /\
      method req = POST /\
      headers req = [("Content-Type", "application/json"); ("X-Secret-Key", key)] /\
      body req
      = Some (JObj [("providers", JArr (map (fun p => json_element (id p)) ps))]) /\
      ((forall p, In p ps -> exists s, id p = JStr s) ->
       body req = Some (JObj [("providers", JArr (map id ps))])).
Proof.
  split.
  - rewrite getSecretsSettings_posts.
    destruct (outcome (getProvidersList h)); cbn; try lia.
    destruct (getApiUrl h "/secrets/providers"); cbn; try lia.
    destruct (getSecretKey h); cbn; lia.
  - intros ps u key Hps Hu Hk.
    exists (secretsRequest u key (map id ps)).
    rewrite getSecretsSettings_posts, Hps, Hu, Hk.
    repeat split.
    + cbn [body secretsRequest]. now rewrite JSON_stringify_providers, map_map.
    + intros Hs. cbn [body secretsRequest].
      rewrite JSON_stringify_providers, json_element_string; [reflexivity|].
      intros v Hv. apply in_map_iff in Hv as (p & <- & Hp). now apply Hs.
Qed.

Lemma getSecretsSettings_request_witness :
  exists req,
    posts (trace (getSecretsSettings demo)) = [req] /\
    url req = "http://127.0.0.1:3000/secrets/providers" /\
    headers req = [("Content-Type", "application/json"); ("X-Secret-Key", "test")] /\
    body req = Some (JObj [("providers", JArr [JStr "openai"; JStr "cohere"])]).
Proof.
  destruct (proj2 (getSecretsSettings_request demo)
              _ "http://127.0.0.1:3000/secrets/providers" "test"
              eq_refl eq_refl eq_refl)
    as (req & Hposts & Hurl & _ & Hheaders & Hbody & _).
  exists req. repeat split; assumption.
Defined.

(** ** The catalog payload *)

Lemma or_else_detail (item : JSValue) (k : string) (d : JSValue) :
  or_else (GetOpt (prop item "details") k) d = default_to (detail item k) d.
Proof.
  unfold or_else, GetOpt, detail, default_to, field, prop.
  destruct item; try reflexivity.
  destruct (lookup "details" props) as [dv|]; try reflexivity.
  destruct dv; try reflexivity.
  cbn. destruct (lookup k props0); reflexivity.
Qed.

Lemma formatProvider_run (item : JSValue) :
  nullish item = false ->
  formatProvider item =
  Return {| id := prop item "id";
            name := default_to (detail item "name") (JStr "Unknown Provider");
            description := default_to (detail item "description")
                                      (JStr "No description available.");
            models := default_to (detail item "models") (JArr []);
            requiredKeys := default_to (detail item "required_keys") (JArr []) |}.
Proof.
  intros Hn. unfold formatProvider, Get. rewrite Hn. cbn [cbind].
  now rewrite !or_else_detail.
Qed.

Lemma Array_map_length {A} (f : JSValue -> Completion A) (l : list JSValue) (l' : list A) :
  Array_map f l = Return l' -> List.length l' = List.length l.
Proof.
  revert l'. induction l as [|x l IH]; cbn; intros l' H.
  - now inversion H.
  - destruct (f x); cbn in H; try discriminate.
    destruct (Array_map f l); cbn in H; try discriminate.
    inversion H; subst. cbn. f_equal. now apply IH.
Qed.

Lemma Array_map_nth {A} (f : JSValue -> Completion A) (l : list JSValue) (l' : list A) :
  Array_map f l = Return l' ->
  forall i x, nth_error l i = Some x ->
              exists y, nth_error l' i = Some y /\ f x = Return y.
Proof.
  revert l'. induction l as [|x0 l IH]; cbn; intros l' H i x Hi.
  - destruct i; discriminate.
  - destruct (f x0) as [y0| |] eqn:Hf; cbn in H; try discriminate.
    destruct (Array_map f l) as [ys| |]; cbn in H; try discriminate.
    inversion H; subst.
    destruct i as [|i]; cbn in *.
    + inversion Hi; subst. eauto.
    + eapply IH; eauto.
Qed.

Lemma Array_map_defined {A} (f : JSValue -> Completion A) (l : list JSValue) :
  Forall (fun x => exists y, f x = Return y) l ->
  exists l', Array_map f l = Return l'.
Proof.
  induction 1 as [|x l [y Hy] _ [ys Hys]]; cbn.
  - eauto.
  - rewrite Hy, Hys. cbn. eauto.
Qed.

(** A successful catalog response whose entries are all readable (none is
    [null]) gives one record per entry. *)
Lemma getProvidersList_entries (h : Host) (items : list JSValue) :
  catalog h items ->
  Forall (fun item => nullish item = false) items ->
  exists ps,
    outcome (getProvidersList h) = Return ps /\
    List.length ps = List.length items /\
    forall i item, nth_error items i = Some item ->
                   exists p, nth_error ps i = Some p /\ formatProvider item = Return p.
Proof.
  intros (r & Hr & Hok & Hj) Hitems.
  rewrite (getProvidersList_success Hr Hok Hj). cbn [call_map].
  destruct (Array_map_defined formatProvider (l:=items)) as [ps Hps].
  - eapply Forall_impl; [|exact Hitems].
    intros item Hn. rewrite (formatProvider_run _ Hn). eauto.
  - exists ps. split; [assumption|]. split.
    + eapply Array_map_length; eauto.
    + intros i item Hi. eapply Array_map_nth; eauto.
Qed.

(** C8: for a successful catalog response that is a sequence of raw
    entries, [getProvidersList] returns one record per entry, in the
    order of the response: the i-th record is what the mapping callback
    makes of the i-th entry. *)
Theorem getProvidersList_order (h : Host) (items : list JSValue) :
  catalog h items ->
  Forall (fun item => nullish item = false) items ->
  exists ps,
    outcome (getProvidersList h) = Return ps /\
    List.length ps = List.length items /\
    forall i item, nth_error items i = Some item ->
                   exists p, nth_error ps i = Some p /\ formatProvider item = Return p.
Proof. exact (@getProvidersList_entries h items). Qed.

Lemma getProvidersList_order_witness :
  exists ps,
    outcome (getProvidersList demo)
    = Return ps /\
    List.length ps = 2 /\
    forall i item, nth_error [entry_openai; entry_cohere] i = Some item ->
                   exists p, nth_error ps i = Some p /\ formatProvider item = Return p.
Proof.
  apply (@getProvidersList_order
           demo
           [entry_openai; entry_cohere]).
  - exists (json_response example_catalog). repeat split.
    exists "http://127.0.0.1:3000/agent/providers". split; reflexivity.
  - repeat constructor.
Defined.

(** ** Defaulting of the detail fields *)

(** C3, as stated, fails: [entry_local] has all four detail fields
    present, yet the record returned for it has the default name and not
    the entry's own (empty) name. *)
Lemma getProvidersList_present_name_replaced :
  detail entry_local "name" = Some (JStr "") /\
  detail entry_local "description" = Some (JStr "Runs on this machine") /\
  detail entry_local "models" = Some (JArr [JStr "llama"]) /\
  detail entry_local "required_keys" = Some (JArr []) /\
  outcome (getProvidersList local_catalog)
  = Return [{| id := JStr "local";
               name := JStr "Unknown Provider";
               description := JStr "Runs on this machine";
               models := JArr [JStr "llama"];
               requiredKeys := JArr [] |}] /\
  outcome (getProvidersList local_catalog) <> Return [described_record entry_local].
Proof.
  repeat split; try reflexivity. discriminate.
Qed.

(** C3, amended: for a raw catalog entry in which all four detail fields
    are present and truthy (a non-empty string for the name and the
    description; an array, even an empty one, is truthy),
    [getProvidersList] returns a record with every field preserved
    exactly, no default being applied. *)
Theorem getProvidersList_preserves (h : Host) (items : list JSValue)
        (i : nat) (item n d m k : JSValue) :
  catalog h items ->
  Forall (fun item => nullish item = false) items ->
  nth_error items i = Some item ->
  detail item "name" = Some n -> ToBoolean n = true ->
  detail item "description" = Some d -> ToBoolean d = true ->
  detail item "models" = Some m -> ToBoolean m = true ->
  detail item "required_keys" = Some k -> ToBoolean k = true ->
  exists ps,
    outcome (getProvidersList h) = Return ps /\
    nth_error ps i = Some {| id := prop item "id";
                             name := n;
                             description := d;
                             models := m;
                             requiredKeys := k |}.
Proof.
  intros Hc Hitems Hi Hn Tn Hd Td Hm Tm Hk Tk.
  destruct (getProvidersList_entries Hc Hitems) as (ps & Hps & _ & Hnth).
  exists ps. split; [assumption|].
  destruct (Hnth i item Hi) as (p & Hp & Hf). rewrite Hp. f_equal.
  rewrite formatProvider_run in Hf
    by (eapply Forall_forall in Hitems; [eassumption | eapply nth_error_In; eassumption]).
  inversion Hf. unfold default_to.
  now rewrite Hn, Hd, Hm, Hk, Tn, Td, Tm, Tk.
Qed.

Lemma getProvidersList_preserves_witness :
  exists ps,
    outcome (getProvidersList demo)
    = Return ps /\
    nth_error ps 0 = Some {| id := JStr "openai";
                             name := JStr "OpenAI";
                             description := JStr "GPT models";
                             models := JArr [JStr "gpt-4o"];
                             requiredKeys := JArr [JStr "KEY1"] |}.
Proof.
  apply (@getProvidersList_preserves
           demo
           [entry_openai; entry_cohere] 0 entry_openai
           (JStr "OpenAI") (JStr "GPT models")
           (JArr [JStr "gpt-4o"]) (JArr [JStr "KEY1"]));
    try reflexivity.
  - exists (json_response example_catalog). repeat split.
    exists "http://127.0.0.1:3000/agent/providers". split; reflexivity.
  - repeat constructor.
Defined.

(** C4, as stated, fails: in [entry_draft] only the description is
    present (the other three detail fields are missing), but the record
    returned has the default description as well, not the entry's own
    (empty) one: a field that is not missing has been defaulted. *)
Lemma getProvidersList_present_description_replaced :
  detail entry_draft "description" = Some (JStr "") /\
  detail entry_draft "name" = None /\
  detail entry_draft "models" = None /\
  detail entry_draft "required_keys" = None /\
  outcome (getProvidersList draft_catalog)
  = Return [{| id := JStr "draft";
               name := JStr "Unknown Provider";
               description := JStr "No description available.";
               models := JArr [];
               requiredKeys := JArr [] |}] /\
  outcome (getProvidersList draft_catalog) <> Return [described_record entry_draft].
Proof.
  repeat split; try reflexivity. discriminate.
Qed.

(** C4, amended: for every raw catalog entry, each output field is
    defaulted on its own, whatever the other fields are, when it is
    absent from the source payload or falsy there (an empty string, for
    instance): the name becomes ["Unknown Provider"], the description
    ["No description available."], the models and the required keys the
    empty sequence; a field that is present and truthy is kept.  An entry
    with no [details] object gets exactly the four defaults. *)
Theorem getProvidersList_defaults (h : Host) (items : list JSValue)
        (i : nat) (item : JSValue) :
  catalog h items ->
  Forall (fun item => nullish item = false) items ->
  nth_error items i = Some item ->
  exists ps p,
    outcome (getProvidersList h) = Return ps /\
    nth_error ps i = Some p /\
    name p = default_to (detail item "name") (JStr "Unknown Provider") /\
    description p = default_to (detail item "description")
                               (JStr "No description available.") /\
    models p = default_to (detail item "models") (JArr []) /\
    requiredKeys p = default_to (detail item "required_keys") (JArr []) /\
    (field item "details" = None ->
     p = {| id := prop item "id";
            name := JStr "Unknown Provider";
            description := JStr "No description available.";
            models := JArr [];
            requiredKeys := JArr [] |}).
Proof.
  intros Hc Hitems Hi.
  destruct (getProvidersList_entries Hc Hitems) as (ps & Hps & _ & Hnth).
  destruct (Hnth i item Hi) as (p & Hp & Hf).
  exists ps, p. do 2 (split; [assumption|]).
  rewrite formatProvider_run in Hf
    by (eapply Forall_forall in Hitems; [eassumption | eapply nth_error_In; eassumption]).
  inversion Hf; subst p; cbn. repeat split.
  intros Hnone. unfold detail. now rewrite Hnone.
Qed.

Lemma getProvidersList_defaults_witness :
  exists ps p,
    outcome (getProvidersList demo)
    = Return ps /\
    nth_error ps 1 = Some p /\
    p = {| id := JStr "cohere";
           name := JStr "Unknown Provider";
           description := JStr "No description available.";
           models := JArr [];
           requiredKeys := JArr [] |}.
Proof.
  destruct (@getProvidersList_defaults
              demo
              [entry_openai; entry_cohere] 1 entry_cohere)
    as (ps & p & Hps & Hp & _ & _ & _ & _ & Hnone).
  - exists (json_response example_catalog). repeat split.
    exists "http://127.0.0.1:3000/agent/providers". split; reflexivity.
  - repeat constructor.
  - reflexivity.
  - exists ps, p. repeat split; try assumption. apply Hnone. reflexivity.
Defined.

(** ** The secrets-status mapping *)

Lemma or_else_field (p : JSValue) (k : string) (d : JSValue) :
  or_else (prop p k) d = default_to (field p k) d.
Proof.
  unfold or_else, default_to, prop, field.
  destruct p; try reflexivity. destruct (lookup k props); reflexivity.
Qed.

Lemma Get_object (props : list (string * JSValue)) (k : string) :
  Get (JObj props) k = Return (prop (JObj props) k).
Proof. reflexivity. Qed.

Lemma Array_some_is_set (l : list JSValue) :
  forallb is_SecretStatus l = true ->
  Array_some (fun key => Get key "is_set") l = Return (existsb is_set l).
Proof.
  induction l as [|st l IH]; cbn [forallb Array_some existsb]; [reflexivity|].
  intros H. apply andb_true_iff in H as [Hst Hl].
  unfold is_SecretStatus in Hst. unfold is_set.
  destruct st; cbn in Hst; try discriminate.
  unfold Get. cbn.
  destruct (lookup "is_set" props) as [[| |b| | | |]|]; try discriminate.
  cbn. destruct b; cbn; [reflexivity | now apply IH].
Qed.

Lemma hasSetKey_typed (p : JSValue) :
  is_ProviderResponse p = true ->
  hasSetKey p = Return (JBool (has_set_secret p)).
Proof.
  intros H. unfold is_ProviderResponse in H.
  destruct p; try discriminate.
  apply andb_true_iff in H as [_ H].
  unfold hasSetKey, has_set_secret, secret_statuses.
  rewrite Get_object. cbn [cbind prop field] in *.
  destruct (lookup "secret_status" props) as [[| | | | | |keys]|]; try discriminate.
  - cbn [or_else ToBoolean Object_values cbind].
    now rewrite (Array_some_is_set _ H).
  - reflexivity.
Qed.

Lemma Array_filter_typed (l : list JSValue) :
  forallb is_ProviderResponse l = true ->
  Array_filter hasSetKey l = Return (filter has_set_secret l).
Proof.
  induction l as [|p l IH]; cbn [forallb Array_filter filter]; [reflexivity|].
  intros H. apply andb_true_iff in H as [Hp Hl].
  rewrite (hasSetKey_typed _ Hp), (IH Hl). cbn.
  destruct (has_set_secret p); reflexivity.
Qed.

Lemma Array_map_providerName (l : list JSValue) :
  Forall (fun p => nullish p = false) l ->
  Array_map providerName l = Return (map display_name l).
Proof.
  induction 1 as [|p l Hp _ IH]; cbn [Array_map map]; [reflexivity|].
  unfold providerName at 1, Get. rewrite Hp. cbn [cbind].
  rewrite IH. cbn. unfold display_name. now rewrite or_else_field.
Qed.

(** On a mapping of the declared type the pipeline does not throw and
    yields the names of the entries that have a set secret. *)
Lemma activeProviders_typed (entries : list (string * JSValue)) :
  is_SecretsSettings (JObj entries) = true ->
  activeProviders (JObj entries) = Return (active_names entries).
Proof.
  cbn [is_SecretsSettings]. intros H.
  unfold activeProviders, active_names. cbn [Object_values cbind].
  rewrite (Array_filter_typed _ H). cbn [cbind].
  apply Array_map_providerName.
  apply Forall_forall. intros p Hp.
  apply filter_In in Hp as [Hp _].
  eapply forallb_forall in H; [|exact Hp].
  destruct p; try discriminate; reflexivity.
Qed.

(** ** Runs of [getActiveProviders] *)

Lemma tryBlock_outcome (h : Host) :
  outcome (tryBlock h) =
  match outcome (getSecretsSettings h) with
  | Return data => activeProviders data
  | Throw e => Throw e
  | Pending => Pending
  end.
Proof.
  unfold tryBlock. rewrite outcome_bind. cbn [outcome console_log emit snd].
  rewrite outcome_bind.
  destruct (outcome (getSecretsSettings h)) as [data| |]; try reflexivity.
  rewrite outcome_bind. cbn [outcome console_log emit snd].
  rewrite outcome_bind. cbn [outcome lift snd].
  destruct (activeProviders data); reflexivity.
Qed.

Lemma getActiveProviders_outcome (h : Host) :
  outcome (getActiveProviders h) =
  match outcome (tryBlock h) with
  | Return names => Return names
  | Throw _ => Return []
  | Pending => Pending
  end.
Proof.
  unfold getActiveProviders. rewrite outcome_bind.
  cbn [outcome console_log emit snd]. rewrite outcome_try_catch.
  destruct (outcome (tryBlock h)); reflexivity.
Qed.

Lemma getActiveProviders_caught (h : Host) (e : Exn) :
  outcome (tryBlock h) = Throw e ->
  getActiveProviders h
  = (ConsoleLog "here 1" None
       :: trace (tryBlock h) ++ [ConsoleError "Failed to get active providers:" e],
     Return []).
Proof.
  intros He. unfold getActiveProviders, try_catch. rewrite He.
  reflexivity.
Qed.

Lemma getActiveProviders_settings (h : Host) (data : JSValue) :
  outcome (getSecretsSettings h) = Return data ->
  outcome (getActiveProviders h) =
  match activeProviders data with
  | Return names => Return names
  | Throw _ => Return []
  | Pending => Pending
  end.
Proof.
  intros H. now rewrite getActiveProviders_outcome, tryBlock_outcome, H.
Qed.

(** ** [getActiveProviders] does not fail *)

(** C1: [getActiveProviders] never rejects, whatever the host does; and
    when anything it depends on raises an error [e] (be it
    [getProvidersList] or [getSecretsSettings] failing on a network error,
    a non-success status or a malformed body, or the filter/map pipeline
    itself failing on the data received), the error is caught: the call
    logs it and returns the empty sequence. *)
Theorem getActiveProviders_never_throws (h : Host) :
  (forall e, outcome (getActiveProviders h) <> Throw e) /\
  (forall e,
      outcome (getProvidersList h) = Throw e \/
      outcome (getSecretsSettings h) = Throw e \/
      (exists data, outcome (getSecretsSettings h) = Return data /\
                    activeProviders data = Throw e) ->
      outcome (getActiveProviders h) = Return [] /\
      exists t, trace (getActiveProviders h)
                = t ++ [ConsoleError "Failed to get active providers:" e]).
Proof.
  split.
  - intros e. rewrite getActiveProviders_outcome.
    destruct (outcome (tryBlock h)); discriminate.
  - intros e He.
    assert (Htry : outcome (tryBlock h) = Throw e).
    { rewrite tryBlock_outcome.
      destruct He as [He | [He | (data & Hd & He)]].
      - now rewrite (getSecretsSettings_propagates h He).
      - now rewrite He.
      - now rewrite Hd. }
    rewrite (getActiveProviders_caught h Htry). split; [reflexivity|].
    exists (ConsoleLog "here 1" None :: trace (tryBlock h)). reflexivity.
Qed.

Lemma getActiveProviders_never_throws_witness :
  outcome (getActiveProviders offline) = Return [] /\
  outcome (getActiveProviders
             catalog_down)
  = Return [] /\
  outcome (getActiveProviders
             secrets_malformed)
  = Return [] /\
  outcome (getActiveProviders
             secrets_null)
  = Return [].
Proof.
  split; [|split; [|split]].
  - refine (proj1 (proj2 (getActiveProviders_never_throws offline)
                     (Rejection "TypeError" "Failed to fetch") _)).
    left. reflexivity.
  - refine (proj1 (proj2 (getActiveProviders_never_throws _)
                     (Error "Failed to fetch providers: Internal Server Error") _)).
    left. reflexivity.
  - refine (proj1 (proj2 (getActiveProviders_never_throws _)
                     (Rejection "SyntaxError" "Unexpected end of JSON input") _)).
    right. left. reflexivity.
  - refine (proj1 (proj2 (getActiveProviders_never_throws _) TypeError _)).
    right. right. exists JNull. split; reflexivity.
Defined.

(** ** The names returned by [getActiveProviders] *)

Lemma has_set_secret_spec (p : JSValue) :
  has_set_secret p = true <->
  exists keys st,
    field p "secret_status" = Some (JObj keys) /\
    In st (map snd keys) /\
    field st "is_set" = Some (JBool true).
Proof.
  unfold has_set_secret, secret_statuses. split.
  - intros H. apply existsb_exists in H as (st & Hin & Hst).
    destruct (field p "secret_status") as [[| | | | | |keys]|]; try contradiction.
    exists keys, st. repeat split; auto.
    unfold is_set in Hst.
    destruct (field st "is_set") as [[| |[|]| | | |]|]; try discriminate. reflexivity.
  - intros (keys & st & -> & Hin & Hst).
    apply existsb_exists. exists st. split; [assumption|].
    unfold is_set. now rewrite Hst.
Qed.

(** C2, as stated, fails: in [settings_local] the provider has a set
    secret and a name field that is present (and empty); the claim puts
    that name field in the result, the call returns ["Unknown Provider"]
    in its place. *)
Lemma getActiveProviders_present_name_replaced :
  outcome (getSecretsSettings local_host) = Return settings_local /\
  is_SecretsSettings settings_local = true /\
  has_set_secret obj_local = true /\
  field obj_local "name" = Some (JStr "") /\
  described_name obj_local = JStr "" /\
  outcome (getActiveProviders local_host) = Return [JStr "Unknown Provider"] /\
  outcome (getActiveProviders local_host)
  <> Return (map described_name (filter has_set_secret [obj_local])).
Proof.
  repeat split; try reflexivity. discriminate.
Qed.

(** C2, amended: for every secrets-status mapping returned by
    [getSecretsSettings], [getActiveProviders] returns, entry by entry,
    the provider's display name (its name field, or ["Unknown Provider"]
    when that field is absent or empty) if and only if at least one value
    of that provider's [secret_status] mapping has [is_set == true]; an
    entry whose [secret_status] is absent is left out, and for the mapping
    with OpenAI (key set) and Cohere (key not set) the result is
    [["OpenAI"]]. *)
Theorem getActiveProviders_names (h : Host) (entries : list (string * JSValue)) :
  outcome (getSecretsSettings h) = Return (JObj entries) ->
  is_SecretsSettings (JObj entries) = true ->
  outcome (getActiveProviders h)
  = Return (map display_name (filter has_set_secret (map snd entries))) /\
  (forall n, In n (map display_name (filter has_set_secret (map snd entries))) <->
             exists key p keys st,
               In (key, p) entries /\ display_name p = n /\
               field p "secret_status" = Some (JObj keys) /\
               In st (map snd keys) /\
               field st "is_set" = Some (JBool true)) /\
  (forall p, field p "secret_status" = None -> has_set_secret p = false) /\
  (JObj entries = example_settings ->
   outcome (getActiveProviders h) = Return [JStr "OpenAI"]).
Proof.
  intros Hs Ht.
  assert (Hout : outcome (getActiveProviders h) = Return (active_names entries)).
  { now rewrite (getActiveProviders_settings h Hs), (activeProviders_typed _ Ht). }
  split; [exact Hout|]. split; [|split].
  - intros n. rewrite in_map_iff. split.
    + intros (p & Hn & Hp). apply filter_In in Hp as [Hp Hq].
      apply in_map_iff in Hp as ([key p'] & Hp' & Hin). cbn in Hp'. subst p'.
      apply has_set_secret_spec in Hq as (keys & st & Hk & Hst & Hset).
      exists key, p, keys, st. auto.
    + intros (key & p & keys & st & Hin & Hn & Hk & Hst & Hset).
      exists p. split; [assumption|]. apply filter_In. split.
      * apply in_map_iff. exists (key, p). auto.
      * apply has_set_secret_spec. eauto.
  - intros p Hp. unfold has_set_secret, secret_statuses. now rewrite Hp.
  - intros He. rewrite Hout. injection He as ->. reflexivity.
Qed.

Lemma getActiveProviders_names_witness :
  outcome (getActiveProviders
             demo)
  = Return [JStr "OpenAI"].
Proof.
  refine (proj1 (@getActiveProviders_names
                   demo
                   [("openai", obj_openai); ("cohere", obj_cohere)] _ _));
    reflexivity.
Defined.

(** ** Defaulting on an empty string *)

(** C9: defaulting is triggered by falsiness, not only by absence.  A raw
    catalog entry whose [details.name] is present and equal to the empty
    string gets the name ["Unknown Provider"] from [getProvidersList], one
    whose [details.description] is present and empty gets the description
    ["No description available."]; and in [getActiveProviders] a provider
    with a set secret whose name field is present and empty contributes
    ["Unknown Provider"] to the result, at its place. *)
Theorem empty_string_is_defaulted (h : Host) :
  (forall items i item,
      catalog h items ->
      Forall (fun item => nullish item = false) items ->
      nth_error items i = Some item ->
      exists ps p,
        outcome (getProvidersList h) = Return ps /\
        nth_error ps i = Some p /\
        (detail item "name" = Some (JStr "") ->
         name p = JStr "Unknown Provider") /\
        (detail item "description" = Some (JStr "") ->
         description p = JStr "No description available.")) /\
  (forall before key p after,
      outcome (getSecretsSettings h) = Return (JObj (before ++ (key, p) :: after)) ->
      is_SecretsSettings (JObj (before ++ (key, p) :: after)) = true ->
      has_set_secret p = true ->
      field p "name" = Some (JStr "") ->
      outcome (getActiveProviders h)
      = Return (active_names before ++ JStr "Unknown Provider" :: active_names after)).
Proof.
  split.
  - intros items i item Hc Hitems Hi.
    destruct (getProvidersList_entries Hc Hitems) as (ps & Hps & _ & Hnth).
    destruct (Hnth i item Hi) as (p & Hp & Hf).
    exists ps, p. do 2 (split; [assumption|]).
    rewrite formatProvider_run in Hf
      by (eapply Forall_forall in Hitems; [eassumption | eapply nth_error_In; eassumption]).
    inversion Hf; subst p; cbn. split; intros ->; reflexivity.
  - intros before key p after Hs Ht Hq Hn.
    rewrite (getActiveProviders_settings h Hs), (activeProviders_typed _ Ht).
    unfold active_names. rewrite map_app, filter_app, map_app. cbn [map filter snd].
    rewrite Hq. cbn [map]. unfold display_name at 2. now rewrite Hn.
Qed.

Lemma empty_string_is_defaulted_witness :
  (exists ps p,
      outcome (getProvidersList
                 local_host) = Return ps /\
      nth_error ps 0 = Some p /\
      name p = JStr "Unknown Provider") /\
  outcome (getActiveProviders
             local_host)
  = Return [JStr "Unknown Provider"].
Proof.
  split.
  - destruct (proj1 (empty_string_is_defaulted
                       local_host)
                [entry_local; entry_draft] 0 entry_local)
      as (ps & p & Hps & Hp & Hname & _).
    + exists (json_response (JArr [entry_local; entry_draft])). repeat split.
      exists "http://127.0.0.1:3000/agent/providers". split; reflexivity.
    + repeat constructor.
    + reflexivity.
    + exists ps, p. repeat split; try assumption. apply Hname. reflexivity.
  - apply (proj2 (empty_string_is_defaulted
                    local_host)
             [] "local" obj_local []); reflexivity.
Defined.

(** ** No deduplication *)

(** C10: for every secrets-status mapping, [getActiveProviders] returns
    exactly one element per entry that has a set secret, in the order of
    the entries: the length of the result is the number of such entries,
    and two of them with the same display name give that name twice. *)
Theorem getActiveProviders_no_dedup (h : Host) (entries : list (string * JSValue)) :
  outcome (getSecretsSettings h) = Return (JObj entries) ->
  is_SecretsSettings (JObj entries) = true ->
  exists names,
    outcome (getActiveProviders h) = Return names /\
    names = map display_name (filter has_set_secret (map snd entries)) /\
    List.length names = List.length (filter has_set_secret (map snd entries)) /\
    (forall before k1 p1 between k2 p2 after,
        entries = before ++ (k1, p1) :: between ++ (k2, p2) :: after ->
        has_set_secret p1 = true ->
        has_set_secret p2 = true ->
        display_name p1 = display_name p2 ->
        names = active_names before
                  ++ display_name p1 :: active_names between
                  ++ display_name p1 :: active_names after).
Proof.
  intros Hs Ht. exists (active_names entries).
  split; [|split; [|split]].
  - now rewrite (getActiveProviders_settings h Hs), (activeProviders_typed _ Ht).
  - reflexivity.
  - unfold active_names. apply length_map.
  - intros before k1 p1 between k2 p2 after -> H1 H2 Heq.
    unfold active_names.
    rewrite !map_app, !filter_app, !map_app. cbn [map filter snd].
    rewrite H1. cbn [map].
    rewrite !map_app, !filter_app, !map_app. cbn [map filter snd].
    rewrite H2. cbn [map]. now rewrite Heq.
Qed.

Lemma getActiveProviders_no_dedup_witness :
  exists names,
    outcome (getActiveProviders
               twins_host)
    = Return names /\
    names = [JStr "OpenAI"; JStr "OpenAI"] /\
    List.length names = 2.
Proof.
  destruct (@getActiveProviders_no_dedup
              twins_host
              [("openai", obj_openai); ("cohere", obj_cohere); ("openai-eu", obj_openai)]
              eq_refl eq_refl)
    as (names & Hout & Hnames & Hlen & _).
  exists names. repeat split; assumption.
Defined.

(** * Further properties *)

(** ** More on [getProvidersList] *)

Lemma getProvidersList_requests (h : Host) :
  requests (trace (getProvidersList h)) =
  match getApiUrl h "/agent/providers" with
  | Return u => [catalogRequest u]
  | _ => []
  end.
Proof.
  unfold getProvidersList, do_fetch, bind, lift.
  destruct (getApiUrl h "/agent/providers") as [u| |]; cbn; try reflexivity.
  destruct (fetch h (catalogRequest u)) as [r| |]; cbn; try reflexivity.
  destruct (ok r); cbn; try reflexivity.
  destruct (json r); reflexivity.
Qed.

(** What a run of [getProvidersList] that returns has gone through. *)
Lemma getProvidersList_returns (h : Host) (ps : list Provider) :
  outcome (getProvidersList h) = Return ps ->
  exists u r items,
    getApiUrl h "/agent/providers" = Return u /\
    fetch h (catalogRequest u) = Return r /\
    ok r = true /\
    json r = Return (JArr items) /\
    Array_map formatProvider items = Return ps.
Proof.
  intros H.
  destruct (getApiUrl h "/agent/providers") as [u| |] eqn:Hu;
    try (unfold getProvidersList, bind, lift in H; rewrite Hu in H; discriminate).
  destruct (fetch h (catalogRequest u)) as [r| |] eqn:Hr;
    try (unfold getProvidersList, do_fetch, bind, lift in H;
         rewrite Hu in H; cbn in H; rewrite Hr in H; discriminate).
  rewrite (getProvidersList_run h Hu Hr) in H.
  destruct (ok r) eqn:Hok; [|discriminate].
  destruct (json r) as [data| |] eqn:Hj; try discriminate.
  destruct data; try discriminate.
  exists u, r, elems. auto.
Qed.

Lemma formatProvider_null (item : JSValue) :
  nullish item = true -> formatProvider item = Throw TypeError.
Proof. intros Hn. unfold formatProvider, Get. now rewrite Hn. Qed.

Lemma Array_map_In {A} (f : JSValue -> Completion A) (l : list JSValue) (l' : list A) :
  Array_map f l = Return l' ->
  forall y, In y l' -> exists x, In x l /\ f x = Return y.
Proof.
  revert l'. induction l as [|x0 l IH]; cbn; intros l' H y Hy.
  - inversion H; subst. contradiction.
  - destruct (f x0) as [y0| |] eqn:Hf; cbn in H; try discriminate.
    destruct (Array_map f l) as [ys| |]; cbn in H; try discriminate.
    inversion H; subst. destruct Hy as [<-|Hy].
    + eauto.
    + destruct (IH ys eq_refl y Hy) as (x & Hx & Hfx). eauto.
Qed.

(** When every element either gives a result or throws [e], one element
    that throws makes the whole [map] throw [e]. *)
Lemma Array_map_throws {A} (f : JSValue -> Completion A) (l : list JSValue) (e : Exn) :
  Forall (fun x => f x = Throw e \/ exists y, f x = Return y) l ->
  Exists (fun x => f x = Throw e) l ->
  Array_map f l = Throw e.
Proof.
  induction 1 as [|x l Hx Hl IH]; intros Hex; [inversion Hex|].
  cbn. destruct Hx as [Hx | [y Hy]].
  - now rewrite Hx.
  - rewrite Hy. cbn. inversion Hex as [? ? Hx0|? ? Hl0]; subst.
    + congruence.
    + now rewrite (IH Hl0).
Qed.

Lemma formatProvider_cases (item : JSValue) :
  formatProvider item = Throw TypeError \/ exists p, formatProvider item = Return p.
Proof.
  destruct (nullish item) eqn:Hn.
  - left. now apply formatProvider_null.
  - right. rewrite (formatProvider_run _ Hn). eauto.
Qed.

Lemma default_to_truthy (source : option JSValue) (d : JSValue) :
  ToBoolean d = true -> ToBoolean (default_to source d) = true.
Proof.
  intros Hd. unfold default_to. destruct source as [v|]; [|assumption].
  destruct (ToBoolean v) eqn:Hv; assumption.
Qed.

(** X1: a run of [getProvidersList] sends at most one request, whatever
    happens to it: once the URL is known it is the single GET to that URL,
    with no header and no body; nothing is sent again after a failure. *)
Theorem getProvidersList_single_get (h : Host) :
  List.length (requests (trace (getProvidersList h))) <= 1 /\
  (forall req, In req (requests (trace (getProvidersList h))) ->
               method req = GET /\ headers req = [] /\ body req = None) /\
  (forall u, getApiUrl h "/agent/providers" = Return u ->
             requests (trace (getProvidersList h))
             = [{| url := u; method := GET; headers := []; body := None |}]).
Proof.
  rewrite getProvidersList_requests.
  destruct (getApiUrl h "/agent/providers") as [u| |]; cbn.
  - split; [lia|]. split.
    + intros req [<-|[]]. repeat split.
    + intros u' Hu. now inversion Hu.
  - split; [lia|]. split; [contradiction | discriminate].
  - split; [lia|]. split; [contradiction | discriminate].
Qed.

(** X2: [getProvidersList] catches nothing: when the URL accessor throws
    [e], when [fetch] rejects with [e] (a network failure), or when the
    body of a successful response fails to parse with [e], the call
    rejects with that same [e]. *)
Theorem getProvidersList_rejection_passes (h : Host) (e : Exn) :
  getApiUrl h "/agent/providers" = Throw e \/
  (exists u, getApiUrl h "/agent/providers" = Return u /\
             fetch h (catalogRequest u) = Throw e) \/
  (exists r, catalog_response h r /\ ok r = true /\ json r = Throw e) ->
  outcome (getProvidersList h) = Throw e.
Proof.
  intros [Hu | [(u & Hu & Hf) | (r & (u & Hu & Hr) & Hok & Hj)]].
  - unfold getProvidersList, bind, lift. now rewrite Hu.
  - unfold getProvidersList, do_fetch, bind, lift. rewrite Hu. cbn. now rewrite Hf.
  - now rewrite (getProvidersList_run h Hu Hr), Hok, Hj.
Qed.

Lemma getProvidersList_rejection_passes_witness :
  outcome (getProvidersList offline) = Throw (Rejection "TypeError" "Failed to fetch") /\
  outcome (getProvidersList catalog_malformed)
  = Throw (Rejection "SyntaxError" "Unexpected end of JSON input").
Proof.
  split.
  - apply (@getProvidersList_rejection_passes offline).
    right. left. exists "http://127.0.0.1:3000/agent/providers". split; reflexivity.
  - apply (@getProvidersList_rejection_passes catalog_malformed).
    right. right. exists malformed_response. split; [|split; reflexivity].
    exists "http://127.0.0.1:3000/agent/providers". split; reflexivity.
Defined.

(** X3: when the catalog answers with a success status and a body that
    parses to anything but an array (an object wrapping the list, a
    string, [null], ...), [getProvidersList] rejects with a [TypeError]
    instead of returning a list. *)
Theorem getProvidersList_not_array (h : Host) (r : Response) (data : JSValue) :
  catalog_response h r ->
  ok r = true ->
  json r = Return data ->
  (forall items, data <> JArr items) ->
  outcome (getProvidersList h) = Throw TypeError.
Proof.
  intros Hr Hok Hj Hna.
  rewrite (getProvidersList_success Hr Hok Hj).
  destruct data; try reflexivity. now destruct (Hna elems).
Qed.

Lemma getProvidersList_not_array_witness :
  outcome (getProvidersList catalog_not_array) = Throw TypeError.
Proof.
  apply (@getProvidersList_not_array catalog_not_array
           (json_response (JObj [("providers", JArr [entry_openai])]))
           (JObj [("providers", JArr [entry_openai])])).
  - exists "http://127.0.0.1:3000/agent/providers". split; reflexivity.
  - reflexivity.
  - reflexivity.
  - discriminate.
Defined.

(** X4: one [null] entry anywhere in the catalog array makes the whole
    call reject with a [TypeError]: no record is returned for the other
    entries either. *)
Theorem getProvidersList_null_entry (h : Host) (items : list JSValue) :
  catalog h items ->
  In JNull items ->
  outcome (getProvidersList h) = Throw TypeError.
Proof.
  intros (r & Hr & Hok & Hj) Hin.
  rewrite (getProvidersList_success Hr Hok Hj). cbn [call_map].
  apply Array_map_throws.
  - apply Forall_forall. intros item _. apply formatProvider_cases.
  - apply Exists_exists. exists JNull. split; [assumption | reflexivity].
Qed.

Lemma getProvidersList_null_entry_witness :
  outcome (getProvidersList catalog_with_null) = Throw TypeError.
Proof.
  apply (@getProvidersList_null_entry catalog_with_null [entry_openai; JNull; entry_cohere]).
  - exists (json_response (JArr [entry_openai; JNull; entry_cohere])).
    split; [|split; reflexivity].
    exists "http://127.0.0.1:3000/agent/providers". split; reflexivity.
  - right. left. reflexivity.
Defined.

(** X5: whatever the host answers, every record [getProvidersList]
    returns has a truthy name, description, models and required keys: no
    record carries an empty or missing name or description, or a missing
    list. *)
Theorem getProvidersList_fields_truthy (h : Host) (ps : list Provider) (p : Provider) :
  outcome (getProvidersList h) = Return ps ->
  In p ps ->
  ToBoolean (name p) = true /\
  ToBoolean (description p) = true /\
  ToBoolean (models p) = true /\
  ToBoolean (requiredKeys p) = true.
Proof.
  intros Hps Hp.
  destruct (getProvidersList_returns h Hps) as (u & r & items & _ & _ & _ & _ & Hmap).
  destruct (Array_map_In _ _ Hmap p Hp) as (item & _ & Hitem).
  destruct (nullish item) eqn:Hn.
  - rewrite (formatProvider_null _ Hn) in Hitem. discriminate.
  - rewrite (formatProvider_run _ Hn) in Hitem. inversion Hitem; subst p; cbn.
    repeat split; now apply default_to_truthy.
Qed.

Lemma getProvidersList_fields_truthy_witness :
  ToBoolean (JStr "Unknown Provider") = true /\
  ToBoolean (JStr "Runs on this machine") = true /\
  ToBoolean (JArr [JStr "llama"]) = true /\
  ToBoolean (JArr []) = true.
Proof.
  apply (@getProvidersList_fields_truthy local_catalog
           [{| id := JStr "local";
               name := JStr "Unknown Provider";
               description := JStr "Runs on this machine";
               models := JArr [JStr "llama"];
               requiredKeys := JArr [] |}]
           {| id := JStr "local";
              name := JStr "Unknown Provider";
              description := JStr "Runs on this machine";
              models := JArr [JStr "llama"];
              requiredKeys := JArr [] |}).
  - reflexivity.
  - left. reflexivity.
Defined.

Lemma prop_field (v : JSValue) (k : string) :
  prop v k = present_or (field v k) JUndefined.
Proof. destruct v; reflexivity. Qed.

(** X6: the [id] of a record is the root-level [id] of its entry, as it
    is: it is never defaulted (an empty id stays empty), it is
    [undefined] when the entry has none, and an [id] inside [details]
    plays no part. *)
Theorem getProvidersList_id_as_is (h : Host) (items : list JSValue)
        (i : nat) (item : JSValue) :
  catalog h items ->
  Forall (fun item => nullish item = false) items ->
  nth_error items i = Some item ->
  exists ps p,
    outcome (getProvidersList h) = Return ps /\
    nth_error ps i = Some p /\
    (forall v, field item "id" = Some v -> id p = v) /\
    (field item "id" = None -> id p = JUndefined).
Proof.
  intros Hc Hitems Hi.
  destruct (getProvidersList_entries Hc Hitems) as (ps & Hps & _ & Hnth).
  destruct (Hnth i item Hi) as (p & Hp & Hf).
  exists ps, p. do 2 (split; [assumption|]).
  rewrite formatProvider_run in Hf
    by (eapply Forall_forall in Hitems; [eassumption | eapply nth_error_In; eassumption]).
  inversion Hf; subst p; cbn [id]. rewrite prop_field.
  split; [intros v Hv | intros Hv]; now rewrite Hv.
Qed.

Lemma getProvidersList_id_as_is_witness :
  exists ps p,
    outcome (getProvidersList bare_catalog) = Return ps /\
    nth_error ps 1 = Some p /\
    id p = JUndefined.
Proof.
  destruct (@getProvidersList_id_as_is bare_catalog [entry_bare; entry_anonymous]
              1 entry_anonymous)
    as (ps & p & Hps & Hp & _ & Hnone).
  - exists (json_response (JArr [entry_bare; entry_anonymous])).
    split; [|split; reflexivity].
    exists "http://127.0.0.1:3000/agent/providers". split; reflexivity.
  - repeat constructor.
  - reflexivity.
  - exists ps, p. split; [assumption|]. split; [assumption|]. apply Hnone. reflexivity.
Defined.

(** X7: an entry whose [details] is there but is not an object ([null],
    a string, a number, an array of anything) does not make the call
    fail: its record gets the four defaults. *)
Theorem getProvidersList_details_not_object (h : Host) (items : list JSValue)
        (i : nat) (item d : JSValue) :
  catalog h items ->
  Forall (fun item => nullish item = false) items ->
  nth_error items i = Some item ->
  field item "details" = Some d ->
  (forall props, d <> JObj props) ->
  exists ps,
    outcome (getProvidersList h) = Return ps /\
    nth_error ps i = Some {| id := prop item "id";
                             name := JStr "Unknown Provider";
                             description := JStr "No description available.";
                             models := JArr [];
                             requiredKeys := JArr [] |}.
Proof.
  intros Hc Hitems Hi Hd Hno.
  destruct (getProvidersList_entries Hc Hitems) as (ps & Hps & _ & Hnth).
  destruct (Hnth i item Hi) as (p & Hp & Hf).
  exists ps. split; [assumption|]. rewrite Hp. f_equal.
  rewrite formatProvider_run in Hf
    by (eapply Forall_forall in Hitems; [eassumption | eapply nth_error_In; eassumption]).
  inversion Hf. unfold detail. rewrite Hd.
  destruct d; try reflexivity. now destruct (Hno props).
Qed.

Lemma getProvidersList_details_not_object_witness :
  exists ps,
    outcome (getProvidersList bare_catalog) = Return ps /\
    nth_error ps 0 = Some {| id := JStr "bare";
                             name := JStr "Unknown Provider";
                             description := JStr "No description available.";
                             models := JArr [];
                             requiredKeys := JArr [] |}.
Proof.
  apply (@getProvidersList_details_not_object bare_catalog
           [entry_bare; entry_anonymous] 0 entry_bare JNull).
  - exists (json_response (JArr [entry_bare; entry_anonymous])).
    split; [|split; reflexivity].
    exists "http://127.0.0.1:3000/agent/providers". split; reflexivity.
  - repeat constructor.
  - reflexivity.
  - reflexivity.
  - discriminate.
Defined.

(** ** More on [getSecretsSettings] *)

Lemma requests_app (t1 t2 : list Event) :
  requests (t1 ++ t2) = requests t1 ++ requests t2.
Proof. unfold requests. apply flat_map_app. Qed.

Lemma getSecretsSettings_requests_split (h : Host) :
  requests (trace (getSecretsSettings h)) =
  requests (trace (getProvidersList h)) ++
  match outcome (getProvidersList h),
        getApiUrl h "/secrets/providers", getSecretKey h with
  | Return ps, Return u, Return key => [secretsRequest u key (map id ps)]
  | _, _, _ => []
  end.
Proof.
  unfold getSecretsSettings. rewrite trace_bind, requests_app. f_equal.
  destruct (outcome (getProvidersList h)) as [ps| |]; try reflexivity.
  unfold do_fetch, bind, lift.
  destruct (getApiUrl h "/secrets/providers") as [u| |]; cbn; try reflexivity.
  destruct (getSecretKey h) as [key| |]; cbn; try reflexivity.
  destruct (fetch h _) as [r| |]; cbn; try reflexivity.
  destruct (ok r); cbn; try reflexivity.
  destruct (json r); reflexivity.
Qed.

Lemma formatProvider_ids (items : list JSValue) (ps : list Provider) :
  Array_map formatProvider items = Return ps ->
  map id ps = map (fun item => prop item "id") items.
Proof.
  revert ps. induction items as [|item items IH]; cbn; intros ps H.
  - now inversion H.
  - destruct (nullish item) eqn:Hn.
    + rewrite (formatProvider_null _ Hn) in H. discriminate.
    + rewrite (formatProvider_run _ Hn) in H. cbn in H.
      destruct (Array_map formatProvider items) as [ps'| |]; cbn in H; try discriminate.
      inversion H; subst. cbn. f_equal. now apply IH.
Qed.

(** X8: when the secrets endpoint answers with a success status,
    [getSecretsSettings] returns the parsed body as it is, whatever JSON
    value it is: nothing is checked or reshaped. *)
Theorem getSecretsSettings_returns_body (h : Host) (r : Response) (data : JSValue) :
  secrets_response h r ->
  ok r = true ->
  json r = Return data ->
  outcome (getSecretsSettings h) = Return data.
Proof.
  intros (ps & u & key & Hps & Hu & Hk & Hr) Hok Hj.
  rewrite (getSecretsSettings_run h Hps Hu Hk). cbv zeta.
  now rewrite Hr, Hok, Hj.
Qed.

Lemma getSecretsSettings_returns_body_witness :
  outcome (getSecretsSettings secrets_null) = Return JNull.
Proof.
  apply (@getSecretsSettings_returns_body secrets_null (json_response JNull) JNull).
  - exists [{| id := JStr "openai";
               name := JStr "OpenAI";
               description := JStr "GPT models";
               models := JArr [JStr "gpt-4o"];
               requiredKeys := JArr [JStr "KEY1"] |};
            {| id := JStr "cohere";
               name := JStr "Unknown Provider";
               description := JStr "No description available.";
               models := JArr [];
               requiredKeys := JArr [] |}],
           "http://127.0.0.1:3000/secrets/providers", "test".
    split; [|split; [|split]]; reflexivity.
  - reflexivity.
  - reflexivity.
Defined.

(** X9: a run of [getSecretsSettings] sends at most two requests, and
    when it gets as far as the secrets request it has sent exactly two:
    the catalog GET first, then the POST. *)
Theorem getSecretsSettings_get_then_post (h : Host) :
  List.length (requests (trace (getSecretsSettings h))) <= 2 /\
  forall ps u key,
    outcome (getProvidersList h) = Return ps ->
    getApiUrl h "/secrets/providers" = Return u ->
    getSecretKey h = Return key ->
    exists u0,
      getApiUrl h "/agent/providers" = Return u0 /\
      requests (trace (getSecretsSettings h))
      = [catalogRequest u0; secretsRequest u key (map id ps)].
Proof.
  rewrite getSecretsSettings_requests_split, getProvidersList_requests. split.
  - rewrite length_app.
    destruct (getApiUrl h "/agent/providers");
      destruct (outcome (getProvidersList h));
      destruct (getApiUrl h "/secrets/providers");
      destruct (getSecretKey h); cbn; lia.
  - intros ps u key Hps Hu Hk.
    destruct (getProvidersList_returns h Hps) as (u0 & _ & _ & Hu0 & _).
    exists u0. split; [assumption|]. now rewrite Hu0, Hps, Hu, Hk.
Qed.

Lemma getSecretsSettings_get_then_post_witness :
  exists u0,
    getApiUrl demo "/agent/providers" = Return u0 /\
    requests (trace (getSecretsSettings demo))
    = [catalogRequest u0;
       secretsRequest "http://127.0.0.1:3000/secrets/providers" "test"
                      [JStr "openai"; JStr "cohere"]].
Proof.
  exact (proj2 (getSecretsSettings_get_then_post demo)
           _ "http://127.0.0.1:3000/secrets/providers" "test"
           eq_refl eq_refl eq_refl).
Defined.

(** X10: the two calls compose: when the catalog answers with an array of
    entries (none of them [null]), the POST of [getSecretsSettings] lists
    the root-level [id] of every catalog entry, in catalog order, an entry
    without [id] appearing as [null]. *)
Theorem getSecretsSettings_posts_catalog_ids (h : Host) (items : list JSValue)
        (u key : string) :
  catalog h items ->
  Forall (fun item => nullish item = false) items ->
  getApiUrl h "/secrets/providers" = Return u ->
  getSecretKey h = Return key ->
  exists req,
    posts (trace (getSecretsSettings h)) = [req] /\
    body req
    = Some (JObj [("providers",
                   JArr (map (fun item => json_element (prop item "id")) items))]).
Proof.
  intros Hc Hitems Hu Hk.
  destruct (getProvidersList_entries Hc Hitems) as (ps & Hps & _ & _).
  destruct (getProvidersList_returns h Hps) as (u0 & r0 & items0 & Hu0 & Hr0 & _ & Hj0 & Hmap).
  destruct Hc as (r & (u1 & Hu1 & Hr1) & _ & Hj).
  assert (items0 = items) by congruence. subst items0.
  exists (secretsRequest u key (map id ps)).
  rewrite getSecretsSettings_posts, Hps, Hu, Hk. split; [reflexivity|].
  cbn [body secretsRequest].
  now rewrite JSON_stringify_providers, (formatProvider_ids _ Hmap), map_map.
Qed.

Lemma getSecretsSettings_posts_catalog_ids_witness :
  exists req,
    posts (trace (getSecretsSettings bare_catalog)) = [req] /\
    body req = Some (JObj [("providers", JArr [JStr "bare"; JNull])]).
Proof.
  apply (@getSecretsSettings_posts_catalog_ids bare_catalog
           [entry_bare; entry_anonymous]
           "http://127.0.0.1:3000/secrets/providers" "test").
  - exists (json_response (JArr [entry_bare; entry_anonymous])).
    split; [|split; reflexivity].
    exists "http://127.0.0.1:3000/agent/providers". split; reflexivity.
  - repeat constructor.
  - reflexivity.
  - reflexivity.
Defined.

(** X11: [getSecretsSettings] catches nothing either.  When, after the
    catalog has been listed, a configuration accessor throws [e], the call
    rejects with [e] and no POST is sent; when the POST is rejected with
    [e] (a network failure) or the body of a successful answer fails to
    parse with [e], the call rejects with [e]. *)
Theorem getSecretsSettings_rejection_passes (h : Host) (ps : list Provider) (e : Exn) :
  outcome (getProvidersList h) = Return ps ->
  (getApiUrl h "/secrets/providers" = Throw e \/
   (exists u, getApiUrl h "/secrets/providers" = Return u /\ getSecretKey h = Throw e) ->
   outcome (getSecretsSettings h) = Throw e /\
   posts (trace (getSecretsSettings h)) = []) /\
  ((exists u key, getApiUrl h "/secrets/providers" = Return u /\
                  getSecretKey h = Return key /\
                  fetch h (secretsRequest u key (map id ps)) = Throw e) \/
   (exists r, secrets_response h r /\ ok r = true /\ json r = Throw e) ->
   outcome (getSecretsSettings h) = Throw e).
Proof.
  intros Hps. split.
  - intros Hcfg. rewrite getSecretsSettings_posts, Hps.
    unfold getSecretsSettings. rewrite outcome_bind, Hps.
    unfold do_fetch, bind, lift.
    destruct Hcfg as [Hu | (u & Hu & Hk)]; rewrite Hu; cbn.
    + split; reflexivity.
    + rewrite Hk. split; reflexivity.
  - intros [(u & key & Hu & Hk & Hf) | (r & (ps' & u & key & Hps' & Hu & Hk & Hr) & Hok & Hj)].
    + rewrite (getSecretsSettings_run h Hps Hu Hk). cbv zeta. now rewrite Hf.
    + rewrite (getSecretsSettings_run h Hps' Hu Hk). cbv zeta. now rewrite Hr, Hok, Hj.
Qed.

Lemma getSecretsSettings_rejection_passes_witness :
  (outcome (getSecretsSettings keyless)
   = Throw (Rejection "Error" "secret key is not configured") /\
   posts (trace (getSecretsSettings keyless)) = []) /\
  outcome (getSecretsSettings secrets_offline)
  = Throw (Rejection "TypeError" "Failed to fetch").
Proof.
  split.
  - refine (proj1 (@getSecretsSettings_rejection_passes keyless _ _ eq_refl) _).
    right. exists "http://127.0.0.1:3000/secrets/providers". split; reflexivity.
  - refine (proj2 (@getSecretsSettings_rejection_passes secrets_offline _ _ eq_refl) _).
    left. exists "http://127.0.0.1:3000/secrets/providers", "test".
    split; [|split]; reflexivity.
Defined.

(** ** More on [getActiveProviders] *)

Lemma or_else_truthy (a d : JSValue) :
  ToBoolean d = true -> ToBoolean (or_else a d) = true.
Proof. intros Hd. unfold or_else. destruct (ToBoolean a) eqn:Ha; assumption. Qed.

Lemma providerName_truthy (p n : JSValue) :
  providerName p = Return n -> ToBoolean n = true.
Proof.
  unfold providerName, Get. destruct (nullish p); cbn; [discriminate|].
  intros H. inversion H. now apply or_else_truthy.
Qed.

Lemma activeProviders_returns (data : JSValue) (names : list JSValue) :
  activeProviders data = Return names ->
  exists values kept,
    Object_values data = Return values /\
    Array_filter hasSetKey values = Return kept /\
    Array_map providerName kept = Return names.
Proof.
  unfold activeProviders. intros H.
  destruct (Object_values data) as [values| |]; cbn in H; try discriminate.
  destruct (Array_filter hasSetKey values) as [kept| |] eqn:Hk; cbn in H;
    try discriminate.
  exists values, kept. auto.
Qed.

Lemma getActiveProviders_returns (h : Host) (names : list JSValue) :
  outcome (getActiveProviders h) = Return names ->
  names = [] \/
  exists data, outcome (getSecretsSettings h) = Return data /\
               activeProviders data = Return names.
Proof.
  rewrite getActiveProviders_outcome, tryBlock_outcome.
  destruct (outcome (getSecretsSettings h)) as [data| |]; try discriminate.
  - destruct (activeProviders data) as [l| |] eqn:Ha; try discriminate.
    + intros H. inversion H; subst. right. eauto.
    + intros H. inversion H. now left.
  - intros H. inversion H. now left.
Qed.

Lemma Array_filter_length (f : JSValue -> Completion JSValue) (l kept : list JSValue) :
  Array_filter f l = Return kept -> List.length kept <= List.length l.
Proof.
  revert kept. induction l as [|x l IH]; cbn; intros kept H.
  - inversion H. cbn. lia.
  - destruct (f x) as [r| |]; cbn in H; try discriminate.
    destruct (Array_filter f l) as [k| |]; cbn in H; try discriminate.
    specialize (IH k eq_refl). inversion H. destruct (ToBoolean r); cbn; lia.
Qed.

Lemma Array_some_cases (l : list JSValue) :
  Array_some (fun key => Get key "is_set") l = Throw TypeError \/
  exists b, Array_some (fun key => Get key "is_set") l = Return b.
Proof.
  induction l as [|key l IH]; cbn.
  - right. eauto.
  - replace (Get key "is_set")
      with (if nullish key then Throw TypeError else Return (prop key "is_set"))
      by reflexivity.
    destruct (nullish key); cbn; [now left|].
    destruct (ToBoolean (prop key "is_set")); [right; eauto | exact IH].
Qed.

Lemma hasSetKey_cases (p : JSValue) :
  hasSetKey p = Throw TypeError \/ exists r, hasSetKey p = Return r.
Proof.
  unfold hasSetKey.
  replace (Get p "secret_status")
    with (if nullish p then Throw TypeError else Return (prop p "secret_status"))
    by reflexivity.
  destruct (nullish p); cbn [cbind]; [now left|].
  destruct (Object_values (or_else (prop p "secret_status") (JObj []))) as [l| |] eqn:Ho;
    cbn [cbind].
  - destruct (Array_some_cases l) as [-> | [b ->]]; cbn; [now left | right; eauto].
  - left. destruct (or_else (prop p "secret_status") (JObj [])); cbn in Ho;
      try discriminate; now inversion Ho.
  - destruct (or_else (prop p "secret_status") (JObj [])); discriminate.
Qed.

(** When every element either gives a result or throws [e], one element
    that throws makes the whole [filter] throw [e]. *)
Lemma Array_filter_throws (f : JSValue -> Completion JSValue) (l : list JSValue) (e : Exn) :
  Forall (fun x => f x = Throw e \/ exists y, f x = Return y) l ->
  Exists (fun x => f x = Throw e) l ->
  Array_filter f l = Throw e.
Proof.
  induction 1 as [|x l Hx Hl IH]; intros Hex; [inversion Hex|].
  cbn. destruct Hx as [Hx | [y Hy]].
  - now rewrite Hx.
  - rewrite Hy. cbn. inversion Hex as [? ? Hx0|? ? Hl0]; subst.
    + congruence.
    + now rewrite (IH Hl0).
Qed.

(** X12: whatever the host answers, every element of a list returned by
    [getActiveProviders] is truthy: the result never holds an empty
    string, [null] or [undefined] in place of a name. *)
Theorem getActiveProviders_names_truthy (h : Host) (names : list JSValue) (n : JSValue) :
  outcome (getActiveProviders h) = Return names ->
  In n names ->
  ToBoolean n = true.
Proof.
  intros Hout Hn.
  destruct (getActiveProviders_returns h Hout) as [-> | (data & _ & Ha)];
    [contradiction|].
  destruct (activeProviders_returns _ Ha) as (values & kept & _ & _ & Hmap).
  destruct (Array_map_In _ _ Hmap n Hn) as (p & _ & Hp).
  now apply providerName_truthy in Hp.
Qed.

Lemma getActiveProviders_names_truthy_witness :
  ToBoolean (JStr "Unknown Provider") = true.
Proof.
  apply (@getActiveProviders_names_truthy local_host [JStr "Unknown Provider"]).
  - reflexivity.
  - left. reflexivity.
Defined.

(** X13: one [null] among the values of the secrets settings makes the
    pipeline throw a [TypeError], so [getActiveProviders] logs it and
    returns the empty sequence: the providers that do have a set secret
    are lost with it. *)
Theorem getActiveProviders_null_entry (h : Host) (data : JSValue)
        (providers : list JSValue) :
  outcome (getSecretsSettings h) = Return data ->
  Object_values data = Return providers ->
  In JNull providers ->
  outcome (getActiveProviders h) = Return [] /\
  exists t, trace (getActiveProviders h)
            = t ++ [ConsoleError "Failed to get active providers:" TypeError].
Proof.
  intros Hs Hv Hin.
  assert (Htry : outcome (tryBlock h) = Throw TypeError).
  { rewrite tryBlock_outcome, Hs. unfold activeProviders. rewrite Hv. cbn [cbind].
    rewrite (@Array_filter_throws hasSetKey providers TypeError); [reflexivity| |].
    - apply Forall_forall. intros p _. apply hasSetKey_cases.
    - apply Exists_exists. exists JNull. split; [assumption | reflexivity]. }
  rewrite (getActiveProviders_caught h Htry). split; [reflexivity|].
  exists (ConsoleLog "here 1" None :: trace (tryBlock h)). reflexivity.
Qed.

Lemma getActiveProviders_null_entry_witness :
  has_set_secret obj_openai = true /\
  outcome (getActiveProviders null_entry_host) = Return [].
Proof.
  split; [reflexivity|].
  refine (proj1 (@getActiveProviders_null_entry null_entry_host settings_with_null
                   [obj_openai; JNull] _ _ _)).
  - reflexivity.
  - reflexivity.
  - right. left. reflexivity.
Defined.

(** X14: the [catch] only handles errors.  When the catalog request or
    the secrets request never settles, [getActiveProviders] never
    settles either: it does not fall back to the empty sequence. *)
Theorem getActiveProviders_stays_pending (h : Host) :
  outcome (getProvidersList h) = Pending \/ outcome (getSecretsSettings h) = Pending ->
  outcome (getActiveProviders h) = Pending /\
  forall names, outcome (getActiveProviders h) <> Return names.
Proof.
  intros H.
  assert (Hs : outcome (getSecretsSettings h) = Pending).
  { destruct H as [H | H]; [|assumption].
    unfold getSecretsSettings. now rewrite outcome_bind, H. }
  rewrite getActiveProviders_outcome, tryBlock_outcome, Hs.
  split; [reflexivity | discriminate].
Qed.

Lemma getActiveProviders_stays_pending_witness :
  outcome (getActiveProviders stalled) = Pending.
Proof.
  refine (proj1 (getActiveProviders_stays_pending stalled _)).
  left. reflexivity.
Defined.

Lemma tryBlock_requests (h : Host) :
  requests (trace (tryBlock h)) = requests (trace (getSecretsSettings h)).
Proof.
  unfold tryBlock. rewrite trace_bind, requests_app.
  cbn [outcome trace console_log emit fst snd requests flat_map app].
  rewrite trace_bind, requests_app.
  destruct (outcome (getSecretsSettings h)) as [data| |];
    [|now rewrite app_nil_r..].
  unfold bind, lift, console_log, emit, ret. cbn.
  destruct (activeProviders data); cbn; now rewrite app_nil_r.
Qed.

Lemma getActiveProviders_requests (h : Host) :
  requests (trace (getActiveProviders h)) = requests (trace (getSecretsSettings h)).
Proof.
  unfold getActiveProviders. rewrite trace_bind, requests_app.
  cbn [outcome trace console_log emit fst snd requests flat_map app].
  rewrite trace_try_catch, requests_app, tryBlock_requests.
  destruct (outcome (tryBlock h)); cbn; now rewrite app_nil_r.
Qed.

(** X15: [getActiveProviders] sends the requests of [getSecretsSettings]
    and no other: at most two in any run, and after a failed catalog
    request nothing but that one request: the [catch] does not retry. *)
Theorem getActiveProviders_no_retry (h : Host) :
  requests (trace (getActiveProviders h)) = requests (trace (getSecretsSettings h)) /\
  List.length (requests (trace (getActiveProviders h))) <= 2 /\
  (forall e, outcome (getProvidersList h) = Throw e ->
             List.length (requests (trace (getActiveProviders h))) <= 1 /\
             posts (trace (getActiveProviders h)) = []).
Proof.
  split; [apply getActiveProviders_requests|]. split.
  - rewrite getActiveProviders_requests, getSecretsSettings_requests_split,
      getProvidersList_requests, length_app.
    destruct (getApiUrl h "/agent/providers");
      destruct (outcome (getProvidersList h));
      destruct (getApiUrl h "/secrets/providers");
      destruct (getSecretKey h); cbn; lia.
  - intros e He. unfold posts.
    rewrite getActiveProviders_requests, getSecretsSettings_requests_split, He,
      app_nil_r, getProvidersList_requests.
    destruct (getApiUrl h "/agent/providers"); cbn; split; (lia || reflexivity).
Qed.

Lemma getActiveProviders_no_retry_witness :
  requests (trace (getActiveProviders catalog_down))
  = [catalogRequest "http://127.0.0.1:3000/agent/providers"].
Proof.
  rewrite (proj1 (getActiveProviders_no_retry catalog_down)). reflexivity.
Defined.

Lemma Object_values_truthy (v : JSValue) :
  ToBoolean v = true -> exists l, Object_values v = Return l.
Proof. destruct v; cbn; intros H; try discriminate; eauto. Qed.

Lemma Array_some_key_set (l : list JSValue) :
  Forall (fun key => nullish key = false) l ->
  Array_some (fun key => Get key "is_set") l = Return (existsb key_set l).
Proof.
  induction 1 as [|key l Hk _ IH]; cbn [Array_some existsb]; [reflexivity|].
  replace (Get key "is_set")
    with (if nullish key then Throw TypeError else Return (prop key "is_set"))
    by reflexivity.
  rewrite Hk. cbn [cbind]. unfold key_set at 1.
  destruct (ToBoolean (prop key "is_set")); [reflexivity | exact IH].
Qed.

Lemma hasSetKey_values (p : JSValue) :
  nullish p = false ->
  hasSetKey p =
  (b <~ Array_some (fun key => Get key "is_set") (status_values p) ;; Return (JBool b)).
Proof.
  intros Hn. unfold hasSetKey, status_values.
  replace (Get p "secret_status")
    with (if nullish p then Throw TypeError else Return (prop p "secret_status"))
    by reflexivity.
  rewrite Hn. cbn [cbind].
  destruct (@Object_values_truthy (or_else (prop p "secret_status") (JObj [])))
    as [l Hl].
  - now apply or_else_truthy.
  - now rewrite Hl.
Qed.

Lemma hasSetKey_readable (p : JSValue) :
  nullish p = false ->
  Forall (fun key => nullish key = false) (status_values p) ->
  hasSetKey p = Return (JBool (some_key_set p)).
Proof.
  intros Hn Hk. rewrite (hasSetKey_values _ Hn), (Array_some_key_set Hk). reflexivity.
Qed.

Lemma Array_filter_readable (l : list JSValue) :
  Forall (fun p => nullish p = false /\
                   Forall (fun key => nullish key = false) (status_values p)) l ->
  Array_filter hasSetKey l = Return (filter some_key_set l).
Proof.
  induction 1 as [|p l [Hn Hk] _ IH]; cbn [Array_filter filter]; [reflexivity|].
  rewrite (hasSetKey_readable _ Hn Hk), IH. cbn.
  destruct (some_key_set p); reflexivity.
Qed.

(** X16: [is_set] is tested for truthiness and nothing is validated.
    For any secrets settings whose entries and key statuses are not
    [null], [getActiveProviders] returns the display names of the entries
    having a key whose [is_set] is truthy: [is_set: 1] counts as set,
    [is_set: ""] does not, and an entry that is not an object (a string,
    a number) is passed over. *)
Theorem getActiveProviders_truthy_is_set (h : Host) (data : JSValue)
        (providers : list JSValue) :
  outcome (getSecretsSettings h) = Return data ->
  Object_values data = Return providers ->
  Forall (fun p => nullish p = false /\
                   Forall (fun key => nullish key = false) (status_values p))
         providers ->
  outcome (getActiveProviders h)
  = Return (map display_name (filter some_key_set providers)).
Proof.
  intros Hs Hv Hr.
  rewrite (getActiveProviders_settings h Hs). unfold activeProviders.
  rewrite Hv. cbn [cbind]. rewrite (Array_filter_readable Hr). cbn [cbind].
  rewrite Array_map_providerName; [reflexivity|].
  apply Forall_forall. intros p Hp. apply filter_In in Hp as [Hp _].
  eapply Forall_forall in Hr; [|exact Hp]. apply Hr.
Qed.

Lemma getActiveProviders_truthy_is_set_witness :
  outcome (getActiveProviders loose_host) = Return [JStr "Numeric"].
Proof.
  apply (@getActiveProviders_truthy_is_set loose_host settings_loose
           [obj_numeric; JStr "n/a"; obj_blank_flag]).
  - reflexivity.
  - reflexivity.
  - repeat constructor.
Defined.

(** X17: the filter stops at the first key whose [is_set] is truthy: a
    provider counts as having a set key as soon as one is found after
    keys that are not [null], whatever comes after it, a [null] key
    included. *)
Theorem hasSetKey_stops_at_first_set_key (p : JSValue) (before after : list JSValue)
        (key : JSValue) :
  nullish p = false ->
  status_values p = before ++ key :: after ->
  Forall (fun k => nullish k = false) before ->
  nullish key = false ->
  key_set key = true ->
  hasSetKey p = Return (JBool true).
Proof.
  intros Hn Hv Hb Hk Hset. rewrite (hasSetKey_values _ Hn), Hv.
  clear Hv. induction Hb as [|k before Hk0 _ IH]; cbn [app Array_some].
  - replace (Get key "is_set")
      with (if nullish key then Throw TypeError else Return (prop key "is_set"))
      by reflexivity.
    rewrite Hk. cbn [cbind]. unfold key_set in Hset. now rewrite Hset.
  - replace (Get k "is_set")
      with (if nullish k then Throw TypeError else Return (prop k "is_set"))
      by reflexivity.
    rewrite Hk0. cbn [cbind].
    destruct (ToBoolean (prop k "is_set")); [reflexivity | exact IH].
Qed.

Lemma hasSetKey_stops_at_first_set_key_witness :
  hasSetKey obj_partial = Return (JBool true).
Proof.
  apply (@hasSetKey_stops_at_first_set_key obj_partial
           [JObj [("is_set", JBool false)]] [JNull] (JObj [("is_set", JBool true)])).
  - reflexivity.
  - reflexivity.
  - repeat constructor.
  - reflexivity.
  - reflexivity.
Defined.

Lemma Array_filter_kept (l kept : list JSValue) :
  Array_filter hasSetKey l = Return kept ->
  Forall (fun p => nullish p = false) kept.
Proof.
  revert kept. induction l as [|p l IH]; cbn; intros kept H.
  - inversion H. constructor.
  - destruct (hasSetKey p) as [r| |] eqn:Hp; cbn in H; try discriminate.
    destruct (Array_filter hasSetKey l) as [k| |]; cbn in H; try discriminate.
    specialize (IH k eq_refl). inversion H.
    destruct (ToBoolean r); [|assumption].
    constructor; [|assumption].
    destruct (nullish p) eqn:Hn; [|reflexivity].
    unfold hasSetKey, Get in Hp. rewrite Hn in Hp. discriminate.
Qed.

(** The [map] of the pipeline never throws: the pipeline ends the way
    its [filter] does. *)
Lemma activeProviders_filter (data : JSValue) :
  activeProviders data =
  (values <~ Object_values data ;;
   kept <~ Array_filter hasSetKey values ;;
   Return (map display_name kept)).
Proof.
  unfold activeProviders.
  destruct (Object_values data) as [values| |]; cbn [cbind]; try reflexivity.
  destruct (Array_filter hasSetKey values) as [kept| |] eqn:Hk; cbn [cbind];
    try reflexivity.
  apply Array_map_providerName. eapply Array_filter_kept; eassumption.
Qed.

Lemma Array_filter_app (f : JSValue -> Completion JSValue) (a b : list JSValue) :
  Array_filter f (a ++ b) =
  (ka <~ Array_filter f a ;; kb <~ Array_filter f b ;; Return (ka ++ kb)).
Proof.
  induction a as [|x a IH]; cbn [app Array_filter].
  - cbn. destruct (Array_filter f b); reflexivity.
  - rewrite IH. destruct (f x) as [r| |]; cbn [cbind]; try reflexivity.
    destruct (Array_filter f a) as [ka| |]; cbn [cbind]; try reflexivity.
    destruct (Array_filter f b) as [kb| |]; cbn [cbind]; try reflexivity.
    destruct (ToBoolean r); reflexivity.
Qed.

(** X18: the entries are judged one by one, in order: the pipeline of
    [getActiveProviders] on a mapping made of two parts gives the names
    for the first part followed by the names for the second, and fails
    when it fails on either part. *)
Theorem activeProviders_append (a b : list (string * JSValue)) :
  activeProviders (JObj (a ++ b)) =
  (la <~ activeProviders (JObj a) ;;
   lb <~ activeProviders (JObj b) ;;
   Return (la ++ lb)).
Proof.
  rewrite !activeProviders_filter. cbn [Object_values cbind].
  rewrite map_app, Array_filter_app.
  destruct (Array_filter hasSetKey (map snd a)) as [ka| |]; cbn [cbind]; try reflexivity.
  destruct (Array_filter hasSetKey (map snd b)) as [kb| |]; cbn [cbind]; try reflexivity.
  now rewrite map_app.
Qed.

(** X19: [getActiveProviders] never returns more names than the secrets
    settings have values, whatever those values are. *)
Theorem getActiveProviders_length_bound (h : Host) (data : JSValue)
        (providers names : list JSValue) :
  outcome (getSecretsSettings h) = Return data ->
  Object_values data = Return providers ->
  outcome (getActiveProviders h) = Return names ->
  List.length names <= List.length providers.
Proof.
  intros Hs Hv Hout.
  destruct (getActiveProviders_returns h Hout) as [-> | (data' & Hs' & Ha)];
    [cbn; lia|].
  assert (data' = data) by congruence. subst data'.
  destruct (activeProviders_returns _ Ha) as (values & kept & Hv' & Hk & Hm).
  assert (values = providers) by congruence. subst values.
  apply Array_map_length in Hm. apply Array_filter_length in Hk. lia.
Qed.

Lemma getActiveProviders_length_bound_witness :
  List.length [JStr "OpenAI"; JStr "OpenAI"] <= List.length [obj_openai; obj_cohere; obj_openai].
Proof.
  apply (@getActiveProviders_length_bound twins_host settings_twins); reflexivity.
Defined.
